(** * E-commerce analytics dashboard: loader, filter pipeline and aggregations

    A shallow embedding of [dashboard/app.py] (and of its near-duplicate
    [dashboard/dash.py]) together with the properties of its data loader,
    of the sidebar filter pipeline of [main] and of the group-by
    aggregations.

    The program is a sequence of pandas calls over one in-memory table.  The
    embedding keeps that shape: a [DataFrame] is an index plus named columns,
    a column ([Series]) is a list of dynamically tagged cells, and every
    pandas operation the program calls is a small function on these lists.
    Python exceptions are values of the error monad [result].

    Conventions of the model.
    - float64 cells are idealised as exact rationals ([Qc]); NaN, NaT and
      None are the one cell [NA].  IEEE rounding is outside the model.
    - A column's dtype is read off the tags of its cells; pandas keeps it
      as a separate attribute of the column.
    - All columns of a frame share the frame's index, so the index alignment
      pandas performs in element-wise operations is positional.
    - Chart rendering ([st.*], [px.*], [go.*], [sns.*]) is not modelled; an
      aggregation function is represented by the table it hands to the
      plotting call. *)

From Stdlib Require Import QArith Qcanon Ascii String.
From stdpp Require Import base numbers list strings sorting gmap.

Local Open Scope Z_scope.
Local Set Warnings "-clear-no-such-hyp".

(** ** Exceptions *)

Inductive exn :=
  | FileNotFoundError
  | ParserError
  | KeyError
  | TypeError
  | AttributeError.

Inductive result (A : Type) :=
  | Ok (a : A)
  | Raise (e : exn).
Arguments Ok {A} a.
Arguments Raise {A} e.

Global Instance result_ret : MRet result := @Ok.
Global Instance result_bind : MBind result := λ A B f m,
  match m with
  | Ok a => f a
  | Raise e => Raise e
  end.
Global Instance result_fmap : FMap result := λ A B f m,
  match m with
  | Ok a => Ok (f a)
  | Raise e => Raise e
  end.

Definition is_Ok {A} (m : result A) : Prop := ∃ a, m = Ok a.

(** ** Cells, series and frames *)

(** Nanoseconds in a day: pandas timestamps and timedeltas count
    nanoseconds. *)
Definition day_ns : Z := 86400 * 1000000000.

Inductive cell :=
  | NA                (* NaN / NaT / None *)
  | Num (x : Qc)      (* int64 or float64 *)
  | Str (s : string)  (* object holding a str *)
  | Ts (ns : Z)       (* datetime64[ns]: nanoseconds since the epoch *)
  | Td (ns : Z)       (* timedelta64[ns] *)
  | Date (d : Z).     (* datetime.date: days since the epoch *)

Global Instance cell_eq_dec : EqDecision cell.
Proof. solve_decision. Defined.

Definition isna (c : cell) : bool :=
  match c with NA => true | _ => false end.
Definition notna (c : cell) : bool := negb (isna c).

Definition Int (z : Z) : cell := Num (Qc_of_Z z).

Abbreviation Series := (list cell).

Record DataFrame := mkDataFrame {
  index : list cell;
  columns : list (string * Series)
}.

(** Association lists keyed by column name: the first binding wins. *)
Fixpoint assoc {A} (c : string) (l : list (string * A)) : option A :=
  match l with
  | [] => None
  | (c', a) :: l' => if decide (c' = c) then Some a else assoc c l'
  end.

(** [df[c] = s] on the column list: replace in place, or append. *)
Fixpoint assign {A} (c : string) (a : A) (l : list (string * A))
  : list (string * A) :=
  match l with
  | [] => [(c, a)]
  | (c', a') :: l' =>
      if decide (c' = c) then (c, a) :: l' else (c', a') :: assign c a l'
  end.

(** [c in df.columns] *)
Definition has_column (c : string) (df : DataFrame) : bool :=
  bool_decide (is_Some (assoc c (columns df))).

(** [df[c]] *)
Definition getitem (df : DataFrame) (c : string) : result Series :=
  match assoc c (columns df) with
  | Some s => Ok s
  | None => Raise KeyError
  end.

(** [df[c] = s] *)
Definition setitem (df : DataFrame) (c : string) (s : Series) : DataFrame :=
  {| index := index df; columns := assign c s (columns df) |}.

(** [df[mask]] for a boolean mask: the selected positions of the index and
    of every column, in order, with their index labels. *)
Fixpoint select {A} (mask : list bool) (l : list A) : list A :=
  match mask, l with
  | b :: mask', x :: l' => if b then x :: select mask' l' else select mask' l'
  | _, _ => []
  end.

Definition getitem_mask (df : DataFrame) (mask : list bool) : DataFrame :=
  {| index := select mask (index df);
     columns := prod_map id (select mask) <$> columns df |}.

(** The row view of a frame, as [df.iterrows()] yields it: index label and
    the cells of the row by column name. *)
Abbreviation row := (list (string * cell)).

Definition iloc (df : DataFrame) (i : nat) : row :=
  prod_map id (λ s : Series, default NA (s !! i)) <$> columns df.

Definition iterrows (df : DataFrame) : list (cell * row) :=
  imap (λ i l, (l, iloc df i)) (index df).

(** A frame is rectangular when every column is as long as the index. *)
Definition rectangular (df : DataFrame) : Prop :=
  Forall (λ cs : string * Series, length cs.2 = length (index df)) (columns df).

(** ** Element-wise operations *)

(** [a + b] on cells. A missing operand gives a missing result. *)
Definition cell_add (a b : cell) : result cell :=
  match a, b with
  | NA, _ | _, NA => Ok NA
  | Num x, Num y => Ok (Num (x + y)%Qc)
  | Str x, Str y => Ok (Str (x ++ y))
  | Ts t, Td d | Td d, Ts t => Ok (Ts (t + d))
  | Td x, Td y => Ok (Td (x + y))
  | _, _ => Raise TypeError
  end.

(** [a - b] on cells. *)
Definition cell_sub (a b : cell) : result cell :=
  match a, b with
  | NA, _ | _, NA => Ok NA
  | Num x, Num y => Ok (Num (x - y)%Qc)
  | Ts x, Ts y => Ok (Td (x - y))
  | Ts t, Td d => Ok (Ts (t - d))
  | Td x, Td y => Ok (Td (x - y))
  | _, _ => Raise TypeError
  end.

Definition Series_add (a b : Series) : result Series :=
  mapM (λ p : cell * cell, cell_add p.1 p.2) (zip a b).

Definition Series_sub (a b : Series) : result Series :=
  mapM (λ p : cell * cell, cell_sub p.1 p.2) (zip a b).

(** [Timedelta.days]: whole days, rounded towards minus infinity. *)
Definition days (c : cell) : result cell :=
  match c with
  | NA => Ok NA
  | Td d => Ok (Int (d `div` day_ns))
  | _ => Raise AttributeError
  end.

(** [s.dt.days] *)
Definition dt_days (s : Series) : result Series := mapM days s.

(** [Timestamp.date()] *)
Definition date (c : cell) : result cell :=
  match c with
  | NA => Ok NA
  | Ts t => Ok (Date (t `div` day_ns))
  | _ => Raise AttributeError
  end.

(** [s.dt.date] *)
Definition dt_date (s : Series) : result Series := mapM date s.

(** ** The data loader *)

(** The content of a CSV file: the header line and the records below it. *)
Record csv := mkCsv {
  header : list string;
  records : list (list cell)
}.

(** [pd.RangeIndex(n)] *)
Definition RangeIndex (n : nat) : list cell :=
  (λ i : nat, Int (Z.of_nat i)) <$> seq 0 n.

(** [pd.read_csv]: one column per header field; a record shorter than the
    header is padded with missing values, a longer one is a parse error. *)
Definition read_csv (f : csv) : result DataFrame :=
  if forallb (λ r : list cell, bool_decide (length r ≤ length (header f))%nat)
             (records f)
  then Ok {| index := RangeIndex (length (records f));
             columns :=
               imap (λ j c, (c, (λ r : list cell, default NA (r !! j))
                                  <$> records f))
                    (header f) |}
  else Raise ParserError.

Definition date_columns : list string :=
  [ "order_purchase_timestamp";
    "order_approved_at";
    "order_delivered_carrier_date";
    "order_delivered_customer_date";
    "order_estimated_delivery_date" ]%string.

Section Loader.

(** The date parser behind [pd.to_datetime]: the timestamp a raw cell of
    the file denotes, or [None] when the cell cannot be parsed as a date. *)
Variable parse_datetime : cell → option Z.

(** The file system: the files that exist, by path. *)
Variable fs : gmap string csv.

(** [pd.to_datetime(c, errors='coerce')] on one cell. *)
Definition to_datetime_cell (c : cell) : cell :=
  match c with
  | NA => NA
  | _ => match parse_datetime c with
         | Some t => Ts t
         | None => NA
         end
  end.

(** [pd.to_datetime(s, errors='coerce')] *)
Definition to_datetime (s : Series) : Series := to_datetime_cell <$> s.

(** One turn of the loop over [date_columns]. *)
Definition convert_date_column (df : DataFrame) (col : string) : DataFrame :=
  match assoc col (columns df) with
  | Some s => setitem df col (to_datetime s)
  | None => df
  end.

(** [load_data(file_path)]: the existence check, the read, the date
    conversion and the two derived columns. *)
Definition load_data (file_path : string) : result DataFrame :=
  match fs !! file_path with
  | None => Raise FileNotFoundError
  | Some f =>
      df ← read_csv f;
      let df := foldl convert_date_column df date_columns in
      if has_column "price" df && has_column "freight_value" df then
        price ← getitem df "price";
        freight ← getitem df "freight_value";
        total ← Series_add price freight;
        let df := setitem df "total_value" total in
        if has_column "order_delivered_customer_date" df
           && has_column "order_purchase_timestamp" df then
          delivered ← getitem df "order_delivered_customer_date";
          purchased ← getitem df "order_purchase_timestamp";
          delta ← Series_sub delivered purchased;
          d ← dt_days delta;
          Ok (setitem df "delivery_time" d)
        else Ok df
      else Raise KeyError
  end.

End Loader.

(** ** Comparisons and boolean masks *)

(** Ordering of two present cells of the same type; [None] when Python
    cannot order them. Strings compare by code unit, as [str] does. *)
Definition cell_compare (a b : cell) : option comparison :=
  match a, b with
  | Num x, Num y => Some (x ?= y)%Qc
  | Str x, Str y => Some (String.compare x y)
  | Ts x, Ts y | Td x, Td y | Date x, Date y => Some (x ?= y)
  | _, _ => None
  end.

(** [c >= v] and [c <= v] inside an element-wise comparison of a column with
    a scalar: a missing cell compares false. *)
Definition cell_ge (c v : cell) : result bool :=
  if isna c then Ok false else
  match cell_compare c v with
  | Some Lt => Ok false
  | Some _ => Ok true
  | None => Raise TypeError
  end.

Definition cell_le (c v : cell) : result bool :=
  if isna c then Ok false else
  match cell_compare c v with
  | Some Gt => Ok false
  | Some _ => Ok true
  | None => Raise TypeError
  end.

(** [s >= v], [s <= v] *)
Definition Series_ge (s : Series) (v : cell) : result (list bool) :=
  mapM (λ c, cell_ge c v) s.
Definition Series_le (s : Series) (v : cell) : result (list bool) :=
  mapM (λ c, cell_le c v) s.

(** [c == v] inside [s == v]: never raises, and a missing cell equals
    nothing. *)
Definition cell_eq (c v : cell) : bool := notna c && bool_decide (c = v).

(** [s == v] *)
Definition Series_eq (s : Series) (v : cell) : list bool :=
  (λ c, cell_eq c v) <$> s.

(** [a & b] and [~a] on masks *)
Definition mask_and (a b : list bool) : list bool := zip_with andb a b.
Definition mask_not (a : list bool) : list bool := negb <$> a.

(** ** The filter pipeline of [main] *)

(** The sentinel entry that the two select boxes put before the values of
    the column. *)
Definition All : cell := Str "All".

(** One optional equality filter: [if selected != 'All': mask = mask &
    (df[col] == selected)]. *)
Definition and_selected (df : DataFrame) (col : string) (selected : cell)
  (mask : list bool) : result (list bool) :=
  if bool_decide (selected ≠ All) then
    s ← getitem df col;
    Ok (mask_and mask (Series_eq s selected))
  else Ok mask.

(** The mask of [main]. [date_range] is the pair of [datetime.date] values
    of the date picker, as days since the epoch; the two selections are
    entries of the select boxes. *)
Definition filter_mask (df : DataFrame) (date_range : Z * Z)
  (selected_category selected_payment : cell) : result (list bool) :=
  ts ← getitem df "order_purchase_timestamp";
  d ← dt_date ts;
  lower ← Series_ge d (Date date_range.1);
  ts ← getitem df "order_purchase_timestamp";
  d ← dt_date ts;
  upper ← Series_le d (Date date_range.2);
  let mask := mask_and lower upper in
  mask ← and_selected df "product_category_name" selected_category mask;
  mask ← and_selected df "payment_type" selected_payment mask;
  Ok mask.

(** [filtered_df = df[mask]] *)
Definition apply_filters (df : DataFrame) (date_range : Z * Z)
  (selected_category selected_payment : cell) : result DataFrame :=
  mask ← filter_mask df date_range selected_category selected_payment;
  Ok (getitem_mask df mask).

(** The rows the mask leaves out: [df[~mask]]. *)
Definition filtered_out (df : DataFrame) (date_range : Z * Z)
  (selected_category selected_payment : cell) : result DataFrame :=
  mask ← filter_mask df date_range selected_category selected_payment;
  Ok (getitem_mask df (mask_not mask)).

(** ** Reductions *)

(** [s.count()]: the number of present cells. *)
Definition Series_count (s : Series) : result cell :=
  Ok (Int (Z.of_nat (length (filter (λ c, c ≠ NA) s)))).

(** [s.nunique()]: the number of distinct present cells. *)
Definition Series_nunique (s : Series) : result cell :=
  Ok (Int (Z.of_nat (length (remove_dups (filter (λ c, c ≠ NA) s))))).

(** The total of the present cells of a numeric column; the empty total
    is 0. *)
Fixpoint sum_present (s : Series) : result Qc :=
  match s with
  | [] => Ok 0%Qc
  | NA :: s' => sum_present s'
  | Num x :: s' => r ← sum_present s'; Ok (x + r)%Qc
  | _ :: _ => Raise TypeError
  end.

(** [s.sum()] *)
Definition Series_sum (s : Series) : result cell := Num <$> sum_present s.

(** [s.mean()]: missing when no cell is present. *)
Definition Series_mean (s : Series) : result cell :=
  t ← sum_present s;
  match length (filter (λ c, c ≠ NA) s) with
  | O => Ok NA
  | S n => Ok (Num (t / Qc_of_Z (Z.of_nat (S n)))%Qc)
  end.

(** The larger of two cells, skipping a missing one. *)
Definition cell_max (a b : cell) : result cell :=
  match a, b with
  | NA, c | c, NA => Ok c
  | _, _ =>
      match cell_compare a b with
      | Some Lt => Ok b
      | Some _ => Ok a
      | None => Raise TypeError
      end
  end.

(** [s.max()]: the largest present cell, missing when there is none. *)
Definition Series_max (s : Series) : result cell :=
  foldr (λ c acc, m ← acc; cell_max c m) (Ok NA) s.

(** ** Group-by *)

(** The order in which pandas sorts group keys and values: numbers before
    strings, by value within a type. *)
Definition rank (c : cell) : Z :=
  match c with
  | Num _ => 0 | Str _ => 1 | Ts _ => 2 | Td _ => 3 | Date _ => 4 | NA => 5
  end.

Definition cell_leb (a b : cell) : bool :=
  match cell_compare a b with
  | Some Gt => false
  | Some _ => true
  | None => bool_decide (rank a ≤ rank b)
  end.

Definition cell_before (a b : cell) : Prop := cell_leb a b = true.

Global Instance cell_before_dec : RelDecision cell_before.
Proof. intros a b. unfold cell_before. apply _. Defined.

(** The keys of [groupby(keycol)]: the distinct present values, sorted
    ([dropna=True], [sort=True]). *)
Definition group_keys (keycol : Series) : list cell :=
  merge_sort cell_before (remove_dups (filter (λ c, c ≠ NA) keycol)).

Definition aggfun : Type := Series → result cell.

(** [df.groupby(keycol).agg({col: func, ...})]: one row per key, one column per
    entry; [func] sees the cells of [col] on the rows of the group. *)
Definition agg_column (df : DataFrame) (keycol : Series) (keys : list cell)
  (cf : string * aggfun) : result (string * Series) :=
  s ← getitem df cf.1;
  vals ← mapM (λ k, cf.2 (select (Series_eq keycol k) s)) keys;
  Ok (cf.1, vals).

Definition groupby_agg (df : DataFrame) (keycol : Series)
  (spec : list (string * aggfun)) : result DataFrame :=
  let keys := group_keys keycol in
  cols ← mapM (agg_column df keycol keys) spec;
  Ok {| index := keys; columns := cols |}.

(** [df.rename(columns=names)] *)
Definition rename (names : list (string * string)) (df : DataFrame) : DataFrame :=
  {| index := index df;
     columns := prod_map (λ c, default c (assoc c names)) id <$> columns df |}.

(** [df.reset_index()] for an index called [name]. *)
Definition reset_index (name : string) (df : DataFrame) : DataFrame :=
  {| index := RangeIndex (length (index df));
     columns := (name, index df) :: columns df |}.

(** ** RFM *)

(** [lambda x: (max_date - x.max()).days]; the [days] of [NaT] is NaN. *)
Definition recency_of (max_date : cell) (x : Series) : result cell :=
  m ← Series_max x;
  d ← cell_sub max_date m;
  days d.

Definition calculate_rfm (df : DataFrame) : result DataFrame :=
  ts ← getitem df "order_purchase_timestamp";
  max_date ← Series_max ts;
  keycol ← getitem df "customer_unique_id";
  rfm ← groupby_agg df keycol
          [ ("order_purchase_timestamp", recency_of max_date);
            ("order_id", Series_count);
            ("total_value", Series_sum) ];
  Ok (rename [ ("order_purchase_timestamp", "recency");
               ("order_id", "frequency");
               ("total_value", "monetary") ] rfm).

(** ** Sorting and selection by value *)

(** The order [sort_values] sorts by: on the value, either way round. *)
Definition value_before (ascending : bool) (p q : nat * cell) : Prop :=
  if ascending then cell_before p.2 q.2 else cell_before q.2 p.2.

Global Instance value_before_dec ascending : RelDecision (value_before ascending).
Proof. intros p q. unfold value_before. destruct ascending; apply _. Defined.

(** The positions of a column in sorted order, missing cells last
    ([na_position='last']); ties keep their source order. *)
Definition argsort (ascending : bool) (s : Series) : list nat :=
  let cells := imap (λ i c, (i, c)) s in
  let present := filter (λ p : nat * cell, p.2 ≠ NA) cells in
  let missing := filter (λ p : nat * cell, p.2 = NA) cells in
  (merge_sort (value_before ascending) present ++ missing).*1.

(** [df.iloc[positions]] *)
Definition take_rows (df : DataFrame) (positions : list nat) : DataFrame :=
  {| index := (λ i, default NA (index df !! i)) <$> positions;
     columns := prod_map id (λ s : Series, (λ i, default NA (s !! i)) <$> positions)
                  <$> columns df |}.

(** [df.sort_values(col, ascending=...)] *)
Definition sort_values (col : string) (ascending : bool) (df : DataFrame)
  : result DataFrame :=
  s ← getitem df col;
  Ok (take_rows df (argsort ascending s)).

(** [df.nlargest(n, col)] *)
Definition nlargest (n : nat) (col : string) (df : DataFrame) : result DataFrame :=
  s ← getitem df col;
  Ok (take_rows df (take n (argsort false s))).

(** ** The aggregation functions *)

Record overview := mkOverview {
  total_orders : cell;
  total_revenue : cell;
  avg_order_value : cell;
  avg_delivery_time : cell
}.

(** The four values [create_overview_metrics] formats into its metric
    widgets. *)
Definition create_overview_metrics (df : DataFrame) : result overview :=
  order_id ← getitem df "order_id";
  orders ← Series_nunique order_id;
  total_value ← getitem df "total_value";
  revenue ← Series_sum total_value;
  total_value ← getitem df "total_value";
  avg_value ← Series_mean total_value;
  delivery_time ← getitem df "delivery_time";
  avg_delivery ← Series_mean delivery_time;
  Ok {| total_orders := orders; total_revenue := revenue;
        avg_order_value := avg_value; avg_delivery_time := avg_delivery |}.

(** [daily_orders] of [create_time_series] *)
Definition create_time_series (df : DataFrame) : result DataFrame :=
  ts ← getitem df "order_purchase_timestamp";
  d ← dt_date ts;
  daily ← groupby_agg df d
            [ ("order_id", Series_nunique); ("total_value", Series_sum) ];
  Ok (reset_index "order_purchase_timestamp" daily).

(** [state_counts] and [city_counts] of [create_customer_demographics] *)
Definition create_customer_demographics (df : DataFrame)
  : result (DataFrame * DataFrame) :=
  state ← getitem df "customer_state";
  by_state ← groupby_agg df state [ ("customer_unique_id", Series_nunique) ];
  state_counts ← sort_values "customer_unique_id" true by_state;
  city ← getitem df "customer_city";
  by_city ← groupby_agg df city [ ("customer_unique_id", Series_nunique) ];
  city_counts ← nlargest 10 "customer_unique_id" by_city;
  Ok (state_counts, city_counts).

(** [category_sales] of [create_product_insights] *)
Definition create_product_insights (df : DataFrame) : result DataFrame :=
  category ← getitem df "product_category_name";
  sales ← groupby_agg df category
            [ ("total_value", Series_sum);
              ("delivery_time", Series_mean);
              ("review_score", Series_mean) ];
  sort_values "total_value" false sales.

(** [payment_stats] and [installment_stats] of [create_payment_analysis] *)
Definition create_payment_analysis (df : DataFrame)
  : result (DataFrame * DataFrame) :=
  payment ← getitem df "payment_type";
  payment_stats ← groupby_agg df payment
                    [ ("total_value", Series_sum); ("review_score", Series_mean) ];
  installments ← getitem df "payment_installments";
  stats ← groupby_agg df installments
            [ ("total_value", Series_mean); ("review_score", Series_mean) ];
  Ok (payment_stats, reset_index "payment_installments" stats).

(** ** The sidebar of [main] *)

(** The smaller of two cells, skipping a missing one. *)
Definition cell_min (a b : cell) : result cell :=
  match a, b with
  | NA, c | c, NA => Ok c
  | _, _ =>
      match cell_compare a b with
      | Some Gt => Ok b
      | Some _ => Ok a
      | None => Raise TypeError
      end
  end.

(** [s.min()]: the smallest present cell, missing when there is none. *)
Definition Series_min (s : Series) : result cell :=
  foldr (λ c acc, m ← acc; cell_min c m) (Ok NA) s.

(** [s.unique()]: the distinct cells in order of first appearance; the
    missing cell counts as one value. *)
Fixpoint unique (s : Series) : Series :=
  match s with
  | [] => []
  | c :: s' => c :: filter (λ x, x ≠ c) (unique s')
  end.

(** What [main] sets the sidebar up with: the pair of dates the date picker
    opens on, and the entries of the two select boxes. *)
Record sidebar := mkSidebar {
  date_value : cell * cell;
  categories : list cell;
  payment_types : list cell
}.

Definition sidebar_of (df : DataFrame) : result sidebar :=
  ts ← getitem df "order_purchase_timestamp";
  lo ← Series_min ts;
  ts ← getitem df "order_purchase_timestamp";
  hi ← Series_max ts;
  ts ← getitem df "order_purchase_timestamp";
  min_value ← Series_min ts;
  ts ← getitem df "order_purchase_timestamp";
  max_value ← Series_max ts;
  lo ← date lo;
  hi ← date hi;
  category ← getitem df "product_category_name";
  payment ← getitem df "payment_type";
  Ok {| date_value := (lo, hi);
        categories := All :: unique category;
        payment_types := All :: unique payment |}.

(** ** The top-five tables of [create_rfm_analysis] *)



(** * Vocabulary of the specification

    Predicates on columns and rows, the quantities of the specification
    read off the rows of a table, and the stages of [load_data]. *)

(** A column of dtype datetime64: timestamps and missing cells only. *)
Definition datetime_like (s : Series) : Prop :=
  Forall (λ c, c = NA ∨ ∃ t, c = Ts t) s.

(** The two derived columns, as the two stages that follow the date
    conversion in [load_data]. *)
Definition add_delivery_time (df : DataFrame) : result DataFrame :=
  if has_column "order_delivered_customer_date" df
     && has_column "order_purchase_timestamp" df then
    delivered ← getitem df "order_delivered_customer_date";
    purchased ← getitem df "order_purchase_timestamp";
    delta ← Series_sub delivered purchased;
    d ← dt_days delta;
    Ok (setitem df "delivery_time" d)
  else Ok df.

Definition add_total_value (df : DataFrame) : result DataFrame :=
  if has_column "price" df && has_column "freight_value" df then
    price ← getitem df "price";
    freight ← getitem df "freight_value";
    total ← Series_add price freight;
    add_delivery_time (setitem df "total_value" total)
  else Raise KeyError.

(** The table after the loop over [date_columns]. *)
Definition converted (parse : cell → option Z) (df : DataFrame) : DataFrame :=
  foldl (convert_date_column parse) df date_columns.

(** The delivery time of the specification: the whole days from purchase to
    delivery, missing when one of the two timestamps is. *)
Definition whole_days_between (delivered purchased : cell) : cell :=
  match delivered, purchased with
  | Ts a, Ts b => Int ((a - b) `div` day_ns)
  | _, _ => NA
  end.

(** The rows of an index over a list of columns. *)
Definition rows_from (idx : list cell) (cols : list (string * Series))
  : list (cell * row) :=
  imap (λ i l, (l, prod_map id (λ s : Series, default NA (s !! i)) <$> cols)) idx.

(** The three predicates of the sidebar, on a row. The purchase date is in
    the inclusive range; the row's value equals the selection, unless the
    selection is the sentinel. A missing value equals nothing. *)
Definition in_date_range (date_range : Z * Z) (r : row) : Prop :=
  match assoc "order_purchase_timestamp" r with
  | Some (Ts t) => date_range.1 ≤ t `div` day_ns ≤ date_range.2
  | _ => False
  end.

Definition selected_by (col : string) (selected : cell) (r : row) : Prop :=
  selected = All ∨ (selected ≠ NA ∧ assoc col r = Some selected).

Definition passes (date_range : Z * Z) (selected_category selected_payment : cell)
  (r : row) : Prop :=
  in_date_range date_range r ∧
  selected_by "product_category_name" selected_category r ∧
  selected_by "payment_type" selected_payment r.

Global Instance in_date_range_dec date_range r : Decision (in_date_range date_range r).
Proof. unfold in_date_range. repeat case_match; apply _. Defined.

Global Instance selected_by_dec col selected r : Decision (selected_by col selected r).
Proof. unfold selected_by. apply _. Defined.

Global Instance passes_dec date_range sc sp r : Decision (passes date_range sc sp r).
Proof. unfold passes. apply _. Defined.

(** The date-range part of the mask, on one cell of the purchase column. *)
Definition date_between (date_range : Z * Z) (c : cell) : bool :=
  match c with
  | Ts t => bool_decide (date_range.1 ≤ t `div` day_ns)
            && bool_decide (t `div` day_ns ≤ date_range.2)
  | _ => false
  end.

(** The RFM record of the specification, read off the rows of the table.
    [orders_of] are the rows of one customer; [latest] is the latest
    timestamp among cells, [total_of] the sum of the numbers among cells. *)
Definition column (c : string) (rows : list (cell * row)) : Series :=
  (λ lr : cell * row, default NA (assoc c lr.2)) <$> rows.

Definition orders_of (customer : cell) (df : DataFrame) : list (cell * row) :=
  filter (λ lr : cell * row, assoc "customer_unique_id" lr.2 = Some customer)
         (iterrows df).

Definition latest (s : Series) : option Z :=
  foldr (λ c acc,
           match c, acc with
           | Ts t, Some m => Some (Z.max t m)
           | Ts t, None => Some t
           | _, _ => acc
           end) None s.

Definition total_of (s : Series) : Qc :=
  foldr (λ c acc, match c with Num x => (x + acc)%Qc | _ => acc end) 0%Qc s.

(** Days between the latest purchase of the data set and the latest purchase
    of the customer. *)
Definition recency (df : DataFrame) (customer : cell) : cell :=
  match latest (column "order_purchase_timestamp" (iterrows df)),
        latest (column "order_purchase_timestamp" (orders_of customer df)) with
  | Some a, Some b => Int ((a - b) `div` day_ns)
  | _, _ => NA
  end.

(** The number of order rows of the customer. *)
Definition frequency (df : DataFrame) (customer : cell) : cell :=
  Int (Z.of_nat (length (filter (λ c, c ≠ NA)
                           (column "order_id" (orders_of customer df))))).

(** The sum of [total_value] over the rows of the customer. *)
Definition monetary (df : DataFrame) (customer : cell) : cell :=
  Num (total_of (column "total_value" (orders_of customer df))).

(** A column of numbers and missing cells. *)
Definition numeric (s : Series) : Prop :=
  Forall (λ c, c = NA ∨ ∃ x, c = Num x) s.

(** The RFM record of one customer, as a row of the result. *)
Definition rfm_record (df : DataFrame) (customer : cell) : row :=
  [ ("recency", recency df customer);
    ("frequency", frequency df customer);
    ("monetary", monetary df customer) ].

Global Instance exn_eq_dec : EqDecision exn.
Proof. solve_decision. Defined.
Global Instance DataFrame_eq_dec : EqDecision DataFrame.
Proof. solve_decision. Defined.
Global Instance result_eq_dec `{EqDecision A} : EqDecision (result A).
Proof. solve_decision. Defined.
Global Instance overview_eq_dec : EqDecision overview.
Proof. solve_decision. Defined.

(** What a cell contributes to a sum. *)
Definition value (c : cell) : Qc :=
  match c with Num x => x | _ => 0%Qc end.

(** The rows that carry a customer id. *)
Definition has_customer (r : row) : Prop :=
  default NA (assoc "customer_unique_id" r) ≠ NA.

(** The columns the aggregation functions read. *)
Definition schema : list string :=
  [ "order_id"; "customer_unique_id"; "customer_state"; "customer_city";
    "product_category_name"; "payment_type"; "payment_installments";
    "review_score"; "order_purchase_timestamp"; "total_value";
    "delivery_time" ]%string.

(** A table without rows: what [df[mask]] is when the mask selects
    nothing. *)
Definition empty (df : DataFrame) : Prop :=
  index df = [] ∧ Forall (λ cs : string * Series, cs.2 = []) (columns df).

(** The calendar date of a cell of a datetime column. *)
Definition date_of (c : cell) : cell :=
  match c with
  | Ts t => Date (t `div` day_ns)
  | _ => NA
  end.

(** A column of timestamps without a missing cell. *)
Definition all_timestamps (s : Series) : Prop :=
  Forall (λ c, ∃ t, c = Ts t) s.

(** The earliest timestamp among cells. *)
Definition earliest (s : Series) : option Z :=
  foldr (λ c acc,
           match c, acc with
           | Ts t, Some m => Some (Z.min t m)
           | Ts t, None => Some t
           | _, _ => acc
           end) None s.

(** The rows that carry a purchase timestamp. *)
Definition has_purchase (r : row) : Prop :=
  default NA (assoc "order_purchase_timestamp" r) ≠ NA.

(** The order of [sort_values], [nsmallest] and [nlargest] on two values:
    ascending, where a missing value counts as the largest, or
    descending. *)
Definition in_order (ascending : bool) (a b : cell) : Prop :=
  if ascending then cell_before a b else cell_before b a.

(** The cell of a row in a column. *)
Definition cell_of (col : string) (r : row) : cell :=
  default NA (assoc col r).


(** * A date parser *)

(** [iso_datetime] reads the one date format of the data set,
    [YYYY-MM-DD] optionally followed by [ HH:MM:SS]. It stands for
    [pd.to_datetime] in the examples; the theorems hold for every parser. *)
Definition digit (a : ascii) : option Z :=
  let n := Z.of_nat (nat_of_ascii a) in
  if bool_decide (48 ≤ n ≤ 57) then Some (n - 48) else None.

Definition digits2 (a b : ascii) : option Z :=
  x ← digit a; y ← digit b; Some (10 * x + y).

Definition days_in_month (y m : Z) : Z :=
  if bool_decide (m = 2) then
    if bool_decide (y `mod` 4 = 0 ∧ (y `mod` 100 ≠ 0 ∨ y `mod` 400 = 0))
    then 29 else 28
  else if bool_decide (m ∈ [4; 6; 9; 11]) then 30 else 31.

(** Days from 1970-01-01 to the given day of the proleptic Gregorian
    calendar. *)
Definition days_from_civil (y m d : Z) : Z :=
  let y := if bool_decide (m ≤ 2) then y - 1 else y in
  let era := y `div` 400 in
  let yoe := y - era * 400 in
  let mp := (m + 9) `mod` 12 in
  let doy := (153 * mp + 2) `div` 5 + d - 1 in
  let doe := yoe * 365 + yoe `div` 4 - yoe `div` 100 + doy in
  era * 146097 + doe - 719468.

Definition iso_date (y1 y2 y3 y4 m1 m2 d1 d2 : ascii) : option Z :=
  yh ← digits2 y1 y2; yl ← digits2 y3 y4; m ← digits2 m1 m2; d ← digits2 d1 d2;
  let y := 100 * yh + yl in
  if bool_decide (1 ≤ m ≤ 12 ∧ 1 ≤ d ≤ days_in_month y m)
  then Some (days_from_civil y m d) else None.

Definition iso_time (h1 h2 m1 m2 s1 s2 : ascii) : option Z :=
  h ← digits2 h1 h2; m ← digits2 m1 m2; s ← digits2 s1 s2;
  if bool_decide (h < 24 ∧ m < 60 ∧ s < 60)
  then Some ((h * 3600 + m * 60 + s) * 1000000000) else None.

Definition iso_datetime (c : cell) : option Z :=
  match c with
  | Str s =>
      match list_ascii_of_string s with
      | [y1; y2; y3; y4; "-"; m1; m2; "-"; d1; d2]%char =>
          d ← iso_date y1 y2 y3 y4 m1 m2 d1 d2; Some (d * day_ns)
      | [y1; y2; y3; y4; "-"; m1; m2; "-"; d1; d2; " ";
         h1; h2; ":"; n1; n2; ":"; s1; s2]%char =>
          d ← iso_date y1 y2 y3 y4 m1 m2 d1 d2;
          t ← iso_time h1 h2 n1 n2 s1 s2;
          Some (d * day_ns + t)
      | _ => None
      end
  | _ => None
  end.

(** * The charts of the last months in [app.py] *)

(** [pd.DateOffset(years=..., months=...)] *)
Record DateOffset := mkDateOffset {
  years : Z;
  months : Z
}.

(** The day of the proleptic Gregorian calendar that lies the given number
    of days after 1970-01-01, as year, month and day. *)
Definition civil_from_days (z : Z) : Z * Z * Z :=
  let z := z + 719468 in
  let era := z `div` 146097 in
  let doe := z - era * 146097 in
  let yoe := (doe - doe `div` 1460 + doe `div` 36524 - doe `div` 146096) `div` 365 in
  let y := yoe + era * 400 in
  let doy := doe - (365 * yoe + yoe `div` 4 - yoe `div` 100) in
  let mp := (5 * doy + 2) `div` 153 in
  let d := doy - (153 * mp + 2) `div` 5 + 1 in
  let m := if bool_decide (mp < 10) then mp + 3 else mp - 9 in
  (if bool_decide (m ≤ 2) then y + 1 else y, m, d).

(** [Timestamp - DateOffset]: the calendar date moves back by the years and
    months of the offset, the day of the month is cut to the length of the
    month it lands in, and the time of day stays. *)
Definition minus_offset (t : Z) (o : DateOffset) : Z :=
  let '(y, m, d) := civil_from_days (t `div` day_ns) in
  let total := (y - years o) * 12 + (m - 1) - months o in
  let y' := total `div` 12 in
  let m' := total `mod` 12 + 1 in
  let d' := Z.min d (days_in_month y' m') in
  days_from_civil y' m' d' * day_ns + t `mod` day_ns.

(** [c - offset] on a cell; [NaT - offset] is [NaT]. *)
Definition cell_minus_offset (c : cell) (o : DateOffset) : result cell :=
  match c with
  | NA => Ok NA
  | Ts t => Ok (Ts (minus_offset t o))
  | _ => Raise TypeError
  end.

(** [s >= cutoff] for a scalar that may be missing: nothing is at or after
    a missing cutoff. *)
Definition since (s : Series) (cutoff : cell) : result (list bool) :=
  if isna cutoff then Ok ((λ _, false) <$> s) else Series_ge s cutoff.

(** [df[df[ts] >= df[ts].max() - offset]]: the rows bought in the last
    months of the table. *)
Definition last_months (df : DataFrame) (o : DateOffset) : result DataFrame :=
  ts ← getitem df "order_purchase_timestamp";
  ts' ← getitem df "order_purchase_timestamp";
  newest ← Series_max ts';
  cutoff ← cell_minus_offset newest o;
  mask ← since ts cutoff;
  Ok (getitem_mask df mask).

(** [df.head(n)] *)
Definition head_rows (n : nat) (df : DataFrame) : DataFrame :=
  take_rows df (take n (seq 0 (length (index df)))).

(** [avg_delivery_time] of [create_avg_delivery_time] *)
Definition create_avg_delivery_time (df : DataFrame) : result DataFrame :=
  df_last_year ← last_months df {| years := 1; months := 0 |};
  category ← getitem df_last_year "product_category_name";
  means ← groupby_agg df_last_year category [ ("delivery_time", Series_mean) ];
  sorted ← sort_values "delivery_time" false means;
  Ok (head_rows 10 sorted).

(** [payment_total] of [create_payment_total] *)
Definition create_payment_total (df : DataFrame) : result DataFrame :=
  df_last_six_months ← last_months df {| years := 0; months := 6 |};
  payment ← getitem df_last_six_months "payment_type";
  totals ← groupby_agg df_last_six_months payment [ ("payment_value", Series_sum) ];
  sort_values "payment_value" false totals.

(** [payment_review] of [create_payment_review] *)
Definition create_payment_review (df : DataFrame) : result DataFrame :=
  df_last_six_months ← last_months df {| years := 0; months := 6 |};
  payment ← getitem df_last_six_months "payment_type";
  means ← groupby_agg df_last_six_months payment [ ("review_score", Series_mean) ];
  sort_values "review_score" false means.

(** * Sample data *)

(** Two orders of one customer, worth 10 and 20 in total, bought five days
    apart, and one order of a second customer whose delivery date is
    garbled. *)
Definition sample_csv : csv :=
  {| header := [ "order_id"; "customer_unique_id"; "customer_state";
                 "customer_city"; "product_category_name"; "payment_type";
                 "payment_installments"; "review_score"; "price";
                 "freight_value"; "order_purchase_timestamp";
                 "order_delivered_customer_date" ];
     records :=
       [ [ Str "o1"; Str "alice"; Str "SP"; Str "sao paulo"; Str "toys";
           Str "credit_card"; Int 1; Int 5; Int 8; Int 2;
           Str "2018-01-01 10:00:00"; Str "2018-01-04 09:00:00" ];
         [ Str "o2"; Str "alice"; Str "SP"; Str "sao paulo"; Str "books";
           Str "boleto"; Int 1; Int 4; Int 15; Int 5;
           Str "2018-01-06 10:00:00"; Str "2018-01-08 12:00:00" ];
         [ Str "o3"; Str "bob"; Str "RJ"; Str "niteroi"; Str "toys";
           Str "credit_card"; Int 3; Int 2; Int 30; Int 4;
           Str "2018-01-03 08:30:00"; Str "soon" ] ] |}.

Definition sample_fs : gmap string csv :=
  {[ "data/cleaned_data.csv" := sample_csv ]}.

Definition sample_df : DataFrame :=
  match load_data iso_datetime sample_fs "data/cleaned_data.csv" with
  | Ok df => df
  | Raise _ => {| index := []; columns := [] |}
  end.

(** The sample file without its [price] column. *)
Definition sample_without_price : csv :=
  {| header := [ "order_id"; "freight_value"; "order_purchase_timestamp" ];
     records := [ [ Str "o1"; Int 2; Str "2018-01-01 10:00:00" ] ] |}.

(** A data set with gaps: an order without customer id, an order whose
    purchase timestamp cannot be read, and a category that is called like
    the sentinel of the select box. *)
Definition gaps_csv : csv :=
  {| header := [ "order_id"; "customer_unique_id"; "product_category_name";
                 "payment_type"; "price"; "freight_value";
                 "order_purchase_timestamp"; "order_delivered_customer_date" ];
     records :=
       [ [ Str "o1"; Str "alice"; Str "toys"; Str "credit_card";
           Int 8; Int 2;
           Str "2018-01-01 10:00:00"; Str "2018-01-04 09:00:00" ];
         [ Str "o2"; NA; Str "All"; Str "boleto";
           Int 5; Int 1;
           Str "2018-01-02 10:00:00"; Str "2018-01-05 12:00:00" ];
         [ Str "o3"; Str "carol"; Str "toys"; Str "credit_card";
           Int 30; Int 4;
           Str "unknown"; Str "2018-01-09 12:00:00" ] ] |}.

Definition gaps_fs : gmap string csv :=
  {[ "data/cleaned_data.csv" := gaps_csv ]}.

Definition gaps_df : DataFrame :=
  match load_data iso_datetime gaps_fs "data/cleaned_data.csv" with
  | Ok df => df
  | Raise _ => {| index := []; columns := [] |}
  end.

(** The example of the specification: one customer with two orders, worth
    10 and 20, bought five days apart. *)
Definition two_orders_df : DataFrame :=
  {| index := RangeIndex 2;
     columns := [ ("order_id", [Str "o1"; Str "o2"]);
                  ("customer_unique_id", [Str "alice"; Str "alice"]);
                  ("order_purchase_timestamp",
                   [Ts (17532 * day_ns); Ts (17537 * day_ns)]);
                  ("total_value", [Int 10; Int 20]) ] |}.

(** A data set with a return: an order line with a negative price. *)
Definition refund_csv : csv :=
  {| header := [ "order_id"; "customer_unique_id"; "price"; "freight_value";
                 "order_purchase_timestamp" ];
     records := [ [ Str "o1"; Str "alice"; Int (-20); Int 5;
                    Str "2018-01-01 10:00:00" ] ] |}.

Definition refund_df : DataFrame :=
  match load_data iso_datetime {[ "data/cleaned_data.csv" := refund_csv ]}
          "data/cleaned_data.csv" with
  | Ok df => df
  | Raise _ => {| index := []; columns := [] |}
  end.

(** The sample table filtered to a date range without purchases. *)
Definition sample_empty_df : DataFrame :=
  match apply_filters sample_df (0, 1) All All with
  | Ok df => df
  | Raise _ => sample_df
  end.

(** The sample table filtered to the first three days of 2018. *)
Definition sample_filtered_df : DataFrame :=
  match apply_filters sample_df (17532, 17534) All All with
  | Ok df => df
  | Raise _ => sample_df
  end.

(** * Properties *)

(** ** The error monad *)

Lemma bind_Ok {A B} (f : A → result B) (m : result A) (b : B) :
  m ≫= f = Ok b ↔ ∃ a, m = Ok a ∧ f a = Ok b.
Proof.
  destruct m as [a|e]; simpl; split.
  - intros H. by exists a.
  - by intros (a' & [= <-] & H).
  - intros [=].
  - by intros (a' & [=] & _).
Qed.

Lemma fmap_Ok {A B} (f : A → B) (m : result A) (b : B) :
  f <$> m = Ok b ↔ ∃ a, m = Ok a ∧ b = f a.
Proof.
  destruct m as [a|e]; simpl; split.
  - intros [= <-]. by exists a.
  - by intros (a' & [= <-] & ->).
  - intros [=].
  - by intros (a' & [=] & _).
Qed.

Lemma mapM_Ok {A B} (f : A → result B) (l : list A) (k : list B) :
  mapM f l = Ok k ↔ Forall2 (λ x y, f x = Ok y) l k.
Proof.
  revert k. induction l as [|x l IH]; intros k; simpl.
  - split; [intros [= <-]; constructor | by inversion 1].
  - split.
    + intros (y & Hy & (k' & Hk' & [= <-])%bind_Ok)%bind_Ok.
      constructor; [done | by apply IH].
    + inversion 1 as [|? y ? k' Hy Hk']; subst.
      apply bind_Ok. exists y. split; [done|].
      apply bind_Ok. exists k'. split; [by apply IH | done].
Qed.

Lemma mapM_is_Ok {A B} (f : A → result B) (l : list A) :
  Forall (λ x, is_Ok (f x)) l → is_Ok (mapM f l).
Proof.
  induction 1 as [|x l [y Hy] _ [k Hk]].
  - by exists [].
  - exists (y :: k). apply mapM_Ok. constructor; [done | by apply mapM_Ok].
Qed.

Lemma mapM_length {A B} (f : A → result B) (l : list A) (k : list B) :
  mapM f l = Ok k → length k = length l.
Proof. intros H%mapM_Ok. symmetry. by eapply Forall2_length. Qed.

(** A failed element read counts as a missing cell on both sides of an
    element-wise operation that maps missing cells to missing cells. *)
Lemma mapM_lookup_default (f : cell → result cell) (l k : Series) (i : nat) :
  f NA = Ok NA → mapM f l = Ok k →
  f (default NA (l !! i)) = Ok (default NA (k !! i)).
Proof.
  intros HNA H%mapM_Ok. revert i.
  induction H as [|x y l k Hxy _ IH]; intros [|i]; simpl; auto.
Qed.

(** An element-wise binary operation that maps a missing operand to a
    missing result agrees with its cell operation at every position, a
    position past the end of a column reading as missing. *)
Lemma zip_mapM_lookup (f : cell → cell → result cell) (a b t : Series) (i : nat) :
  (∀ x, f NA x = Ok NA) → (∀ x, f x NA = Ok NA) →
  mapM (λ p : cell * cell, f p.1 p.2) (zip a b) = Ok t →
  f (default NA (a !! i)) (default NA (b !! i)) = Ok (default NA (t !! i)).
Proof.
  intros Hl Hr. revert b t i.
  induction a as [|x a IH]; intros [|y b] t i Ht; simpl in *.
  - by injection Ht as <-.
  - by injection Ht as <-.
  - injection Ht as <-. simpl. apply Hr.
  - apply bind_Ok in Ht as (z & Hz & (k & Hk & [= <-])%bind_Ok).
    destruct i as [|i]; simpl; [done | by apply IH].
Qed.

Lemma cell_add_NA_l (x : cell) : cell_add NA x = Ok NA.
Proof. done. Qed.
Lemma cell_add_NA_r (x : cell) : cell_add x NA = Ok NA.
Proof. by destruct x. Qed.
Lemma cell_sub_NA_l (x : cell) : cell_sub NA x = Ok NA.
Proof. done. Qed.
Lemma cell_sub_NA_r (x : cell) : cell_sub x NA = Ok NA.
Proof. by destruct x. Qed.

(** ** Column lists *)

Lemma assoc_assign {A} (c c' : string) (a : A) (l : list (string * A)) :
  assoc c' (assign c a l) = if decide (c = c') then Some a else assoc c' l.
Proof.
  induction l as [|[d b] l IH]; simpl.
  - by destruct (decide (c = c')).
  - destruct (decide (d = c)) as [->|Hdc]; simpl.
    + by destruct (decide (c = c')).
    + destruct (decide (d = c')) as [->|Hdc'].
      * by rewrite decide_False by done.
      * done.
Qed.

Lemma assoc_fmap {A B} (f : A → B) (c : string) (l : list (string * A)) :
  assoc c (prod_map id f <$> l) = f <$> assoc c l.
Proof.
  induction l as [|[d b] l IH]; simpl; [done|].
  by destruct (decide (d = c)).
Qed.

Lemma assoc_elem_of {A} (c : string) (a : A) (l : list (string * A)) :
  assoc c l = Some a → (c, a) ∈ l.
Proof.
  induction l as [|[d b] l IH]; simpl; [done|].
  destruct (decide (d = c)) as [->|]; [intros [= ->]; left | right; auto].
Qed.

Lemma has_column_true (c : string) (df : DataFrame) :
  has_column c df = true ↔ ∃ s, getitem df c = Ok s.
Proof.
  unfold has_column, getitem. rewrite bool_decide_eq_true.
  destruct (assoc c (columns df)) as [s|]; split.
  - by exists s.
  - by eexists.
  - by intros [? [=]].
  - by intros [? [=]].
Qed.

Lemma has_column_false (c : string) (df : DataFrame) :
  has_column c df = false ↔ getitem df c = Raise KeyError.
Proof.
  unfold has_column, getitem. rewrite bool_decide_eq_false.
  destruct (assoc c (columns df)) as [s|]; split; try done.
  intros []. by eexists.
Qed.

Lemma getitem_setitem (df : DataFrame) (c c' : string) (s : Series) :
  getitem (setitem df c s) c' = if decide (c = c') then Ok s else getitem df c'.
Proof.
  unfold getitem, setitem. simpl. rewrite assoc_assign.
  by destruct (decide (c = c')).
Qed.

Lemma getitem_iloc (df : DataFrame) (c : string) (s : Series) (i : nat) :
  getitem df c = Ok s → assoc c (iloc df i) = Some (default NA (s !! i)).
Proof.
  unfold getitem, iloc. rewrite assoc_fmap.
  destruct (assoc c (columns df)); [by intros [= ->] | done].
Qed.

Lemma elem_of_iterrows (df : DataFrame) (l : cell) (r : row) :
  (l, r) ∈ iterrows df ↔ ∃ i, index df !! i = Some l ∧ r = iloc df i.
Proof.
  unfold iterrows. rewrite elem_of_lookup_imap. split.
  - intros (i & l' & [= -> ->] & Hi). by exists i.
  - intros (i & Hi & ->). by exists i, l.
Qed.

(** ** The loader *)

Section LoaderProperties.

Context (parse : cell → option Z) (fs : gmap string csv).

Lemma load_data_stages (p : string) :
  load_data parse fs p =
    match fs !! p with
    | None => Raise FileNotFoundError
    | Some f => df ← read_csv f; add_total_value (converted parse df)
    end.
Proof. reflexivity. Qed.

Lemma getitem_convert (df : DataFrame) (col c : string) :
  getitem (convert_date_column parse df col) c =
    if decide (col = c) then to_datetime parse <$> getitem df c else getitem df c.
Proof.
  unfold convert_date_column.
  destruct (assoc col (columns df)) as [s|] eqn:Hs.
  - rewrite getitem_setitem. destruct (decide (col = c)) as [<-|]; [|done].
    unfold getitem. by rewrite Hs.
  - destruct (decide (col = c)) as [<-|]; [|done].
    unfold getitem. by rewrite Hs.
Qed.

Lemma index_convert (df : DataFrame) (col : string) :
  index (convert_date_column parse df col) = index df.
Proof. unfold convert_date_column. by destruct (assoc col (columns df)). Qed.

Lemma getitem_foldl_convert (cols : list string) (df : DataFrame) (c : string) :
  NoDup cols →
  getitem (foldl (convert_date_column parse) df cols) c =
    if decide (c ∈ cols) then to_datetime parse <$> getitem df c else getitem df c.
Proof.
  intros Hnd. revert df. induction Hnd as [|col cols Hcol _ IH]; intros df; simpl.
  - by destruct (decide (c ∈ [])) as [?%elem_of_nil|].
  - rewrite IH, getitem_convert.
    repeat case_decide; try done; exfalso; set_solver.
Qed.

Lemma index_foldl_convert (cols : list string) (df : DataFrame) :
  index (foldl (convert_date_column parse) df cols) = index df.
Proof.
  revert df. induction cols as [|col cols IH]; intros df; simpl; [done|].
  by rewrite IH, index_convert.
Qed.

Lemma NoDup_date_columns : NoDup date_columns.
Proof. apply (bool_decide_unpack _). by vm_compute. Qed.

Lemma getitem_converted (df : DataFrame) (c : string) :
  getitem (converted parse df) c =
    if decide (c ∈ date_columns) then to_datetime parse <$> getitem df c
    else getitem df c.
Proof. apply getitem_foldl_convert, NoDup_date_columns. Qed.

Lemma to_datetime_like (s : Series) : datetime_like (to_datetime parse s).
Proof.
  unfold datetime_like, to_datetime. apply Forall_fmap, Forall_true.
  intros c. unfold compose, to_datetime_cell.
  destruct c; auto; destruct (parse _); eauto.
Qed.

End LoaderProperties.

Lemma cell_sub_datetime (a b : cell) :
  (a = NA ∨ ∃ t, a = Ts t) → (b = NA ∨ ∃ t, b = Ts t) →
  ∃ d, cell_sub a b = Ok d ∧ days d =
    Ok (match a, b with
        | Ts x, Ts y => Int ((x - y) `div` day_ns)
        | _, _ => NA
        end).
Proof. intros [->|[x ->]] [->|[y ->]]; simpl; eauto. Qed.

Lemma delivery_days_is_Ok (a b : Series) :
  datetime_like a → datetime_like b →
  ∃ delta d, Series_sub a b = Ok delta ∧ dt_days delta = Ok d.
Proof.
  intros Ha Hb.
  assert (Forall (λ p : cell * cell, ∃ d, cell_sub p.1 p.2 = Ok d ∧ is_Ok (days d))
            (zip a b)) as Hzip.
  { apply Forall_forall. intros [x y] Hxy. simpl.
    destruct (cell_sub_datetime x y) as (d & Hd & Hdays).
    - eapply (proj1 (Forall_forall _ _) Ha), elem_of_zip_l, Hxy.
    - eapply (proj1 (Forall_forall _ _) Hb), elem_of_zip_r, Hxy.
    - exists d. split; [done | by eexists]. }
  destruct (mapM_is_Ok (λ p : cell * cell, cell_sub p.1 p.2) (zip a b)) as [delta Hdelta].
  { eapply Forall_impl; [exact Hzip|]. intros p (d & Hd & _). by exists d. }
  exists delta.
  destruct (mapM_is_Ok days delta) as [d Hd].
  { apply mapM_Ok in Hdelta. apply Forall_forall. intros y Hy.
    apply list_elem_of_lookup in Hy as [i Hi].
    destruct (Forall2_lookup_r _ _ _ _ _ Hdelta Hi) as (p & Hp & Hpy).
    destruct (proj1 (Forall_lookup _ _) Hzip _ _ Hp) as (d' & Hd' & Hok).
    simpl in Hpy. rewrite Hpy in Hd'. by injection Hd' as ->. }
  by exists d.
Qed.

Ltac not_date_column :=
  rewrite decide_False
    by (let H := fresh in intros H; apply (bool_decide_pack _) in H; by vm_compute in H).

Ltac is_date_column :=
  rewrite decide_True by (apply (bool_decide_unpack _); by vm_compute).

Section LoadedTable.

Context (parse : cell → option Z) (fs : gmap string csv).

Lemma add_delivery_time_Ok (df1 df : DataFrame) :
  add_delivery_time df1 = Ok df →
  index df = index df1 ∧
  (∀ c, c ≠ "delivery_time" → getitem df c = getitem df1 c) ∧
  (∀ delivered purchased,
     getitem df1 "order_delivered_customer_date" = Ok delivered →
     getitem df1 "order_purchase_timestamp" = Ok purchased →
     ∃ delta d, Series_sub delivered purchased = Ok delta ∧
                dt_days delta = Ok d ∧ getitem df "delivery_time" = Ok d).
Proof.
  unfold add_delivery_time.
  destruct (has_column "order_delivered_customer_date" df1) eqn:Hd; simpl;
    [destruct (has_column "order_purchase_timestamp" df1) eqn:Hp; simpl|].
  - intros (delivered & Hdel & (purchased & Hpur & (delta & Hdelta &
      (d & Hdays & [= <-])%bind_Ok)%bind_Ok)%bind_Ok)%bind_Ok.
    split; [done|]. split.
    + intros c Hc. rewrite getitem_setitem. by rewrite decide_False.
    + intros delivered' purchased' Hdel' Hpur'.
      rewrite Hdel in Hdel'. rewrite Hpur in Hpur'.
      injection Hdel' as <-. injection Hpur' as <-.
      exists delta, d. by rewrite getitem_setitem.
  - intros [= <-]. do 2 (split; [done|]).
    intros delivered purchased _ Hpur.
    apply has_column_false in Hp. by rewrite Hp in Hpur.
  - intros [= <-]. do 2 (split; [done|]).
    intros delivered purchased Hdel _.
    apply has_column_false in Hd. by rewrite Hd in Hdel.
Qed.

Lemma load_data_Ok (p : string) (df : DataFrame) :
  load_data parse fs p = Ok df →
  ∃ f df0 price freight total,
    fs !! p = Some f ∧ read_csv f = Ok df0 ∧
    getitem df0 "price" = Ok price ∧
    getitem df0 "freight_value" = Ok freight ∧
    Series_add price freight = Ok total ∧
    index df = index df0 ∧
    getitem df "total_value" = Ok total ∧
    (∀ c, c ≠ "total_value" → c ≠ "delivery_time" →
          getitem df c = getitem (converted parse df0) c) ∧
    (∀ delivered purchased,
       getitem (converted parse df0) "order_delivered_customer_date" = Ok delivered →
       getitem (converted parse df0) "order_purchase_timestamp" = Ok purchased →
       ∃ delta d, Series_sub delivered purchased = Ok delta ∧
                  dt_days delta = Ok d ∧ getitem df "delivery_time" = Ok d).
Proof.
  rewrite load_data_stages. destruct (fs !! p) as [f|]; [|done].
  intros (df0 & Hread & Hstage)%bind_Ok. unfold add_total_value in Hstage.
  destruct (has_column "price" _ && has_column "freight_value" _); [|done].
  apply bind_Ok in Hstage as (price & Hprice & Hstage).
  apply bind_Ok in Hstage as (freight & Hfreight & Hstage).
  apply bind_Ok in Hstage as (total & Htotal & Hstage).
  apply add_delivery_time_Ok in Hstage as (Hindex & Hother & Hdelivery).
  rewrite getitem_converted in Hprice, Hfreight.
  revert Hprice Hfreight. do 2 not_date_column. intros Hprice Hfreight.
  exists f, df0, price, freight, total. repeat split; try done.
  - rewrite Hindex. apply index_foldl_convert.
  - rewrite Hother by done. by rewrite getitem_setitem.
  - intros c Hc1 Hc2. rewrite Hother by done. rewrite getitem_setitem.
    by rewrite decide_False.
  - intros delivered purchased Hdel Hpur. apply Hdelivery.
    + by rewrite getitem_setitem.
    + by rewrite getitem_setitem.
Qed.

Lemma load_data_is_Ok (p : string) (f : csv) (df0 : DataFrame)
    (price freight total : Series) :
  fs !! p = Some f → read_csv f = Ok df0 →
  getitem df0 "price" = Ok price →
  getitem df0 "freight_value" = Ok freight →
  Series_add price freight = Ok total →
  is_Ok (load_data parse fs p).
Proof.
  intros Hf Hread Hprice Hfreight Htotal.
  rewrite load_data_stages, Hf, Hread. simpl. unfold add_total_value.
  assert (getitem (converted parse df0) "price" = Ok price) as Hprice'.
  { rewrite getitem_converted. by not_date_column. }
  assert (getitem (converted parse df0) "freight_value" = Ok freight) as Hfreight'.
  { rewrite getitem_converted. by not_date_column. }
  rewrite (proj2 (has_column_true _ _)), (proj2 (has_column_true _ _)) by eauto.
  simpl. rewrite Hprice'. simpl. rewrite Hfreight'. simpl. rewrite Htotal. simpl.
  unfold add_delivery_time.
  set (df1 := setitem _ _ _).
  destruct (has_column "order_delivered_customer_date" df1) eqn:Hd; simpl;
    [destruct (has_column "order_purchase_timestamp" df1) eqn:Hp; simpl|];
    [|by eexists..].
  apply has_column_true in Hd as [delivered Hdel].
  apply has_column_true in Hp as [purchased Hpur].
  rewrite Hdel, Hpur. simpl.
  destruct (delivery_days_is_Ok delivered purchased) as (delta & d & Hdelta & Hdays).
  - unfold df1 in Hdel. rewrite getitem_setitem, decide_False in Hdel by done.
    rewrite getitem_converted in Hdel. revert Hdel. is_date_column.
    intros (s & _ & ->)%fmap_Ok. apply to_datetime_like.
  - unfold df1 in Hpur. rewrite getitem_setitem, decide_False in Hpur by done.
    rewrite getitem_converted in Hpur. revert Hpur. is_date_column.
    intros (s & _ & ->)%fmap_Ok. apply to_datetime_like.
  - rewrite Hdelta. simpl. rewrite Hdays. simpl. by eexists.
Qed.

End LoadedTable.

(** ** Claims about the loader *)

(** C1. In every row of the table [load_data] returns, [total_value] is
    [price + freight_value]: the three cells are there, and the total is
    what the addition of the program yields on the other two (a number for
    two numbers, missing as soon as one of them is missing). *)
Theorem total_value_is_price_plus_freight
    (parse : cell → option Z) (fs : gmap string csv) (p : string)
    (df : DataFrame) (l : cell) (r : row) :
  load_data parse fs p = Ok df →
  (l, r) ∈ iterrows df →
  ∃ price freight total,
    assoc "price" r = Some price ∧
    assoc "freight_value" r = Some freight ∧
    assoc "total_value" r = Some total ∧
    cell_add price freight = Ok total ∧
    (∀ x y, price = Num x → freight = Num y → total = Num (x + y)%Qc).
Proof.
  intros (f & df0 & price & freight & total & _ & _ & Hprice & Hfreight &
          Htotal & _ & Htv & Hother & _)%load_data_Ok
         (i & _ & ->)%elem_of_iterrows.
  assert (getitem df "price" = Ok price) as Hprice'.
  { rewrite Hother by done. rewrite getitem_converted. by not_date_column. }
  assert (getitem df "freight_value" = Ok freight) as Hfreight'.
  { rewrite Hother by done. rewrite getitem_converted. by not_date_column. }
  pose proof (zip_mapM_lookup cell_add price freight total i
                cell_add_NA_l cell_add_NA_r Htotal) as Hcell.
  eexists _, _, _.
  split; [by apply getitem_iloc|]. split; [by apply getitem_iloc|].
  split; [by apply getitem_iloc|]. split; [done|].
  intros x y Hx Hy. rewrite Hx, Hy in Hcell. simpl in Hcell. congruence.
Qed.

Lemma total_value_is_price_plus_freight_witness :
  ∃ price freight total,
    assoc "price" (iloc sample_df 1) = Some price ∧
    assoc "freight_value" (iloc sample_df 1) = Some freight ∧
    assoc "total_value" (iloc sample_df 1) = Some total ∧
    cell_add price freight = Ok total ∧
    (∀ x y, price = Num x → freight = Num y → total = Num (x + y)%Qc).
Proof.
  apply (total_value_is_price_plus_freight iso_datetime sample_fs
           "data/cleaned_data.csv" sample_df (Int 1)).
  - vm_compute. reflexivity.
  - apply elem_of_iterrows. exists 1%nat. split; [|done].
    vm_compute. reflexivity.
Defined.

(** C3. [load_data] raises the file-not-found error on a path that does not
    exist, and the missing-required-column error on a file whose table has
    no [price] column. *)
Theorem load_data_errors
    (parse : cell → option Z) (fs : gmap string csv) (p : string) :
  (fs !! p = None → load_data parse fs p = Raise FileNotFoundError) ∧
  (∀ f df0, fs !! p = Some f → read_csv f = Ok df0 →
            has_column "price" df0 = false →
            load_data parse fs p = Raise KeyError).
Proof.
  split.
  - intros Hp. by rewrite load_data_stages, Hp.
  - intros f df0 Hp Hread Hprice.
    rewrite load_data_stages, Hp, Hread. simpl. unfold add_total_value.
    replace (has_column "price" (converted parse df0)) with false; [done|].
    symmetry. apply has_column_false. rewrite getitem_converted.
    not_date_column. by apply has_column_false.
Qed.

Lemma load_data_errors_witness :
  load_data iso_datetime sample_fs "data/missing.csv" = Raise FileNotFoundError ∧
  load_data iso_datetime {[ "data/cleaned_data.csv" := sample_without_price ]}
    "data/cleaned_data.csv" = Raise KeyError.
Proof.
  split.
  - apply (load_data_errors iso_datetime sample_fs "data/missing.csv").
    vm_compute. reflexivity.
  - eapply (load_data_errors iso_datetime
              {[ "data/cleaned_data.csv" := sample_without_price ]}
              "data/cleaned_data.csv").
    + vm_compute. reflexivity.
    + vm_compute. reflexivity.
    + vm_compute. reflexivity.
Defined.

(** C9. In every row of a table [load_data] returns with its two timestamp
    columns, [delivery_time] is the customer-delivered timestamp minus the
    purchase timestamp in whole days, and it is missing whenever one of the
    two timestamps is missing. *)
Theorem delivery_time_is_whole_days
    (parse : cell → option Z) (fs : gmap string csv) (p : string)
    (df : DataFrame) (l : cell) (r : row) :
  load_data parse fs p = Ok df →
  has_column "order_delivered_customer_date" df = true →
  has_column "order_purchase_timestamp" df = true →
  (l, r) ∈ iterrows df →
  ∃ delivered purchased,
    assoc "order_delivered_customer_date" r = Some delivered ∧
    assoc "order_purchase_timestamp" r = Some purchased ∧
    assoc "delivery_time" r = Some (whole_days_between delivered purchased) ∧
    (delivered = NA ∨ purchased = NA → assoc "delivery_time" r = Some NA).
Proof.
  intros (f & df0 & _ & _ & _ & _ & _ & _ & _ & _ & _ & _ & Hother &
          Hdelivery)%load_data_Ok
         [delivered Hdel]%has_column_true [purchased Hpur]%has_column_true
         (i & _ & ->)%elem_of_iterrows.
  pose proof Hdel as Hdel'. pose proof Hpur as Hpur'.
  rewrite Hother in Hdel', Hpur' by done.
  destruct (Hdelivery _ _ Hdel' Hpur') as (delta & d & Hdelta & Hdays & Hd).
  pose proof (zip_mapM_lookup cell_sub delivered purchased delta i
                cell_sub_NA_l cell_sub_NA_r Hdelta) as Hsub.
  pose proof (mapM_lookup_default days delta d i eq_refl Hdays) as Hday.
  assert (∀ s : Series, datetime_like s →
            default NA (s !! i) = NA ∨ ∃ t, default NA (s !! i) = Ts t) as Hlike.
  { intros s Hs. destruct (s !! i) as [c|] eqn:Hc; simpl; [|by left].
    eapply (proj1 (Forall_lookup _ _) Hs), Hc. }
  rewrite getitem_converted in Hdel', Hpur'. revert Hdel' Hpur'.
  do 2 is_date_column.
  intros (s1 & _ & ->)%fmap_Ok (s2 & _ & ->)%fmap_Ok.
  destruct (cell_sub_datetime _ _ (Hlike _ (to_datetime_like parse s1))
              (Hlike _ (to_datetime_like parse s2))) as (d' & Hd' & Hdays').
  rewrite Hsub in Hd'. injection Hd' as <-.
  rewrite Hday in Hdays'. injection Hdays' as Heq.
  exists (default NA (to_datetime parse s1 !! i)),
         (default NA (to_datetime parse s2 !! i)).
  split; [by apply getitem_iloc|]. split; [by apply getitem_iloc|].
  assert (assoc "delivery_time" (iloc df i) =
          Some (whole_days_between (default NA (to_datetime parse s1 !! i))
                                   (default NA (to_datetime parse s2 !! i)))) as Hdt.
  { rewrite (getitem_iloc _ _ _ _ Hd). f_equal. exact Heq. }
  split; [done|].
  intros [HNA|HNA]; rewrite Hdt, HNA; [done|].
  by destruct (default NA (to_datetime parse s1 !! i)).
Qed.

Lemma delivery_time_is_whole_days_witness :
  ∃ delivered purchased,
    assoc "order_delivered_customer_date" (iloc sample_df 0) = Some delivered ∧
    assoc "order_purchase_timestamp" (iloc sample_df 0) = Some purchased ∧
    assoc "delivery_time" (iloc sample_df 0)
      = Some (whole_days_between delivered purchased) ∧
    (delivered = NA ∨ purchased = NA →
     assoc "delivery_time" (iloc sample_df 0) = Some NA).
Proof.
  apply (delivery_time_is_whole_days iso_datetime sample_fs
           "data/cleaned_data.csv" sample_df (Int 0)).
  - vm_compute. reflexivity.
  - vm_compute. reflexivity.
  - vm_compute. reflexivity.
  - apply elem_of_iterrows. exists 0%nat. split; [|done].
    vm_compute. reflexivity.
Defined.

(** C8. The date columns are parsed permissively. Whatever the date cells
    of the file are, [load_data] returns a table as soon as the file exists,
    parses, and has [price] and [freight_value] columns that add up; and a
    cell of one of the five date columns that the parser cannot read is
    missing in that table. *)
Theorem unparseable_dates_become_missing
    (parse : cell → option Z) (fs : gmap string csv) (p : string)
    (f : csv) (df0 : DataFrame) (price freight total : Series)
    (col : string) (s : Series) (i : nat) (v : cell) :
  fs !! p = Some f → read_csv f = Ok df0 →
  getitem df0 "price" = Ok price →
  getitem df0 "freight_value" = Ok freight →
  Series_add price freight = Ok total →
  col ∈ date_columns → getitem df0 col = Ok s → s !! i = Some v →
  parse v = None →
  ∃ df s', load_data parse fs p = Ok df ∧
           getitem df col = Ok s' ∧ s' !! i = Some NA.
Proof.
  intros Hf Hread Hprice Hfreight Htotal Hcol Hs Hv Hparse.
  destruct (load_data_is_Ok parse fs p f df0 price freight total) as [df Hdf];
    try done.
  exists df, (to_datetime parse s). split; [done|].
  apply load_data_Ok in Hdf
    as (f' & df0' & _ & _ & _ & Hf' & Hread' & _ & _ & _ & _ & _ & Hother & _).
  rewrite Hf in Hf'. injection Hf' as <-.
  rewrite Hread in Hread'. injection Hread' as <-.
  split.
  - rewrite Hother.
    + rewrite getitem_converted, decide_True by done. by rewrite Hs.
    + intros ->. apply (bool_decide_pack _) in Hcol. by vm_compute in Hcol.
    + intros ->. apply (bool_decide_pack _) in Hcol. by vm_compute in Hcol.
  - unfold to_datetime. rewrite list_lookup_fmap, Hv. simpl.
    unfold to_datetime_cell. rewrite Hparse. by destruct v.
Qed.

Lemma unparseable_dates_become_missing_witness :
  ∃ df s', load_data iso_datetime sample_fs "data/cleaned_data.csv" = Ok df ∧
           getitem df "order_delivered_customer_date" = Ok s' ∧
           s' !! 2%nat = Some NA.
Proof.
  eapply (unparseable_dates_become_missing iso_datetime sample_fs
            "data/cleaned_data.csv" sample_csv _ _ _ _
            "order_delivered_customer_date" _ 2 (Str "soon")).
  - vm_compute. reflexivity.
  - vm_compute. reflexivity.
  - vm_compute. reflexivity.
  - vm_compute. reflexivity.
  - vm_compute. reflexivity.
  - apply (bool_decide_unpack _). vm_compute. exact I.
  - vm_compute. reflexivity.
  - vm_compute. reflexivity.
  - vm_compute. reflexivity.
Defined.

(** ** Masks and the row view *)

Lemma select_nil_r {A} (mask : list bool) : select mask (@nil A) = [].
Proof. by destruct mask. Qed.

Lemma select_bool_decide {A} (P : A → Prop) `{!∀ x, Decision (P x)} (l : list A) :
  select ((λ x, bool_decide (P x)) <$> l) l = filter P l.
Proof.
  induction l as [|x l IH]; [done|].
  rewrite fmap_cons, filter_cons. cbn [select]. rewrite IH.
  case_bool_decide; [by rewrite decide_True | by rewrite decide_False].
Qed.

Lemma select_mask_not {A} (P : A → Prop) `{!∀ x, Decision (P x)} (l : list A) :
  select (mask_not ((λ x, bool_decide (P x)) <$> l)) l = filter (λ x, ¬ P x) l.
Proof.
  unfold mask_not. induction l as [|x l IH]; [done|].
  rewrite !fmap_cons, filter_cons. cbn [select]. rewrite IH.
  case_bool_decide; simpl; [rewrite decide_False | rewrite decide_True]; tauto.
Qed.

Lemma iterrows_rows_from (df : DataFrame) :
  iterrows df = rows_from (index df) (columns df).
Proof. done. Qed.

Lemma rows_from_cons (l : cell) (idx : list cell) (cols : list (string * Series)) :
  rows_from (l :: idx) cols =
    (l, prod_map id (λ s : Series, default NA (head s)) <$> cols)
    :: rows_from idx (prod_map id tail <$> cols).
Proof.
  unfold rows_from. simpl. f_equal.
  - f_equal. apply list_fmap_ext. intros _ [c s] _. simpl. by destruct s.
  - apply imap_ext. intros i l' _. simpl. f_equal.
    rewrite <-list_fmap_compose. apply list_fmap_ext. intros _ [c s] _. simpl.
    by destruct s.
Qed.

Lemma rows_from_select (mask : list bool) (idx : list cell)
    (cols : list (string * Series)) :
  rows_from (select mask idx) (prod_map id (select mask) <$> cols)
  = select mask (rows_from idx cols).
Proof.
  revert idx cols. induction mask as [|b mask IH]; intros [|l idx] cols; try done.
  rewrite rows_from_cons. simpl. rewrite <-IH.
  destruct b.
  - rewrite rows_from_cons. f_equal.
    + f_equal. rewrite <-list_fmap_compose. apply list_fmap_ext.
      intros _ [c s] _. simpl. by destruct s.
    + f_equal. rewrite <-!list_fmap_compose. apply list_fmap_ext.
      intros _ [c s] _. simpl. destruct s; simpl; [by rewrite select_nil_r | done].
  - f_equal. rewrite <-list_fmap_compose. apply list_fmap_ext.
    intros _ [c s] _. simpl. destruct s; simpl; [by rewrite select_nil_r | done].
Qed.

(** The rows of [df[mask]] are the rows of [df] the mask selects, in their
    order. *)
Lemma iterrows_getitem_mask (df : DataFrame) (mask : list bool) :
  iterrows (getitem_mask df mask) = select mask (iterrows df).
Proof. apply rows_from_select. Qed.

Lemma imap_positions {A B} (g : nat → B) (l : list A) :
  imap (λ i _, g i) l = g <$> seq 0 (length l).
Proof.
  revert g. induction l as [|x l IH]; intros g; simpl; [done|].
  f_equal. rewrite <-fmap_S_seq, <-list_fmap_compose. apply (IH (g ∘ S)).
Qed.

Lemma fmap_iterrows {B} (h : row → B) (df : DataFrame) :
  (λ lr : cell * row, h lr.2) <$> iterrows df
  = (λ i, h (iloc df i)) <$> seq 0 (length (index df)).
Proof.
  unfold iterrows. rewrite fmap_imap. apply (imap_positions (λ i, h (iloc df i))).
Qed.

Lemma Series_positions (s : Series) :
  s = (λ i, default NA (s !! i)) <$> seq 0 (length s).
Proof.
  apply list_eq. intros i. rewrite list_lookup_fmap.
  destruct (s !! i) as [c|] eqn:Hc.
  - rewrite (lookup_seq_lt _ _ _ (lookup_lt_Some _ _ _ Hc)). simpl. by rewrite Hc.
  - rewrite lookup_seq_ge; [done|]. by apply lookup_ge_None.
Qed.

Lemma mapM_total {A B} (f : A → result B) (g : A → B) (l : list A) :
  Forall (λ x, f x = Ok (g x)) l → mapM f l = Ok (g <$> l).
Proof.
  intros H. apply mapM_Ok. induction H; simpl; by constructor.
Qed.

(** ** The filter pipeline *)

Lemma getitem_length (df : DataFrame) (c : string) (s : Series) :
  rectangular df → getitem df c = Ok s → length s = length (index df).
Proof.
  unfold rectangular, getitem. intros Hrect Hs.
  destruct (assoc c (columns df)) as [s'|] eqn:Hc; [|done]. injection Hs as ->.
  apply assoc_elem_of in Hc.
  by apply (proj1 (Forall_forall _ _) Hrect (c, s)).
Qed.

Lemma date_mask_Ok (date_range : Z * Z) (ts : Series) :
  datetime_like ts →
  ∃ d lower upper,
    dt_date ts = Ok d ∧
    Series_ge d (Date date_range.1) = Ok lower ∧
    Series_le d (Date date_range.2) = Ok upper ∧
    mask_and lower upper = date_between date_range <$> ts.
Proof.
  intros Hts.
  set (date' := λ c, match c with Ts t => Date (t `div` day_ns) | _ => NA end).
  set (geb := λ c, match c with
                   | Date x => bool_decide (date_range.1 ≤ x) | _ => false end).
  set (leb := λ c, match c with
                   | Date x => bool_decide (x ≤ date_range.2) | _ => false end).
  exists (date' <$> ts), (geb <$> (date' <$> ts)), (leb <$> (date' <$> ts)).
  split; [|split; [|split]].
  - apply mapM_total. eapply Forall_impl; [exact Hts|].
    by intros c [->|[t ->]].
  - apply mapM_total, Forall_fmap. eapply Forall_impl; [exact Hts|].
    intros c [->|[t ->]]; [done|]. simpl. unfold cell_ge. simpl.
    destruct (Z.compare_spec (t `div` day_ns) date_range.1);
      case_bool_decide; (done || lia).
  - apply mapM_total, Forall_fmap. eapply Forall_impl; [exact Hts|].
    intros c [->|[t ->]]; [done|]. simpl. unfold cell_le. simpl.
    destruct (Z.compare_spec (t `div` day_ns) date_range.2);
      case_bool_decide; (done || lia).
  - unfold mask_and. rewrite <-!list_fmap_compose.
    rewrite zip_with_fmap_l, zip_with_fmap_r, zip_with_diag.
    apply list_fmap_ext. intros i c Hc. simpl.
    by destruct (Forall_lookup_1 _ _ _ _ Hts Hc) as [->|[t ->]].
Qed.

Lemma notna_True (c : cell) : notna c ↔ c ≠ NA.
Proof. destruct c; simpl; naive_solver. Qed.

Lemma cell_eq_selected (col : string) (x selected : cell) (r : row) :
  selected ≠ All → assoc col r = Some x →
  cell_eq x selected = bool_decide (selected_by col selected r).
Proof.
  intros Hsel Hx. apply eq_bool_prop_intro.
  unfold cell_eq, selected_by.
  rewrite andb_True, notna_True, !bool_decide_spec, Hx. naive_solver.
Qed.

Lemma and_selected_rows (df : DataFrame) (col : string) (selected : cell)
    (m : nat → bool) :
  rectangular df → has_column col df = true →
  and_selected df col selected (m <$> seq 0 (length (index df)))
  = Ok ((λ i, m i && bool_decide (selected_by col selected (iloc df i)))
          <$> seq 0 (length (index df))).
Proof.
  intros Hrect [s Hs]%has_column_true. unfold and_selected.
  case_bool_decide as Hsel.
  - rewrite Hs. simpl. f_equal. unfold mask_and, Series_eq.
    rewrite (Series_positions s), (getitem_length _ _ _ Hrect Hs).
    rewrite <-list_fmap_compose, zip_with_fmap_l, zip_with_fmap_r, zip_with_diag.
    apply list_fmap_ext. intros _ i _. simpl. f_equal.
    apply cell_eq_selected; [done | by apply getitem_iloc].
  - f_equal. apply list_fmap_ext. intros _ i _. simpl.
    rewrite bool_decide_true; [by rewrite andb_true_r|].
    left. by destruct (decide (selected = All)).
Qed.

(** On a rectangular table whose purchase column holds timestamps, the mask
    of [main] marks exactly the rows that pass the three predicates. *)
Lemma filter_mask_rows (df : DataFrame) (date_range : Z * Z) (sc sp : cell)
    (ts : Series) :
  rectangular df →
  getitem df "order_purchase_timestamp" = Ok ts → datetime_like ts →
  has_column "product_category_name" df = true →
  has_column "payment_type" df = true →
  filter_mask df date_range sc sp
  = Ok ((λ lr : cell * row, bool_decide (passes date_range sc sp lr.2))
          <$> iterrows df).
Proof.
  intros Hrect Hts Hlike Hcat Hpay. unfold filter_mask.
  destruct (date_mask_Ok date_range ts Hlike)
    as (d & lower & upper & Hd & Hlower & Hupper & Hmask).
  rewrite Hts. simpl. rewrite Hd. simpl. rewrite Hlower. simpl.
  rewrite Hupper. simpl. rewrite Hmask.
  rewrite (Series_positions ts), (getitem_length _ _ _ Hrect Hts).
  rewrite <-list_fmap_compose.
  rewrite (and_selected_rows df _ sc _ Hrect Hcat). simpl.
  rewrite (and_selected_rows df _ sp _ Hrect Hpay). simpl.
  pose proof (fmap_iterrows (λ r : row, bool_decide (passes date_range sc sp r)) df)
    as Hrows.
  simpl in Hrows. rewrite Hrows.
  apply (f_equal Ok), list_fmap_ext. intros _ i _. simpl.
  apply eq_bool_prop_intro. unfold passes, in_date_range.
  rewrite !andb_True, !bool_decide_spec, (getitem_iloc _ _ _ i Hts).
  assert (Is_true (date_between date_range (default NA (ts !! i))) ↔
          match default NA (ts !! i) with
          | Ts t => date_range.1 ≤ t `div` day_ns ≤ date_range.2
          | _ => False
          end) as ->; [|tauto].
  destruct (default NA (ts !! i)); simpl; try tauto.
  by rewrite andb_True, !bool_decide_spec.
Qed.

(** ** Shape of a loaded table *)

Lemma rectangular_setitem (df : DataFrame) (c : string) (s : Series) :
  rectangular df → length s = length (index df) → rectangular (setitem df c s).
Proof.
  unfold rectangular, setitem. simpl. intros Hrect Hs.
  induction Hrect as [|[c' s'] cols Hc' Hcols IH]; simpl.
  - by repeat constructor.
  - destruct (decide (c' = c)); by constructor.
Qed.

Lemma length_RangeIndex (n : nat) : length (RangeIndex n) = n.
Proof. unfold RangeIndex. by rewrite length_fmap, length_seq. Qed.

Lemma read_csv_rectangular (f : csv) (df : DataFrame) :
  read_csv f = Ok df → rectangular df ∧ index df = RangeIndex (length (records f)).
Proof.
  unfold read_csv. destruct (forallb _ _); [|done]. intros [= <-].
  split; [|done]. unfold rectangular. simpl.
  apply Forall_forall. intros [c s] (j & c' & [= -> ->] & _)%elem_of_lookup_imap.
  simpl. by rewrite length_fmap, length_RangeIndex.
Qed.

Lemma length_zip_mapM {A B C} (f : A * B → result C) (a : list A) (b : list B)
    (t : list C) (n : nat) :
  length a = n → length b = n → mapM f (zip a b) = Ok t → length t = n.
Proof.
  intros Ha Hb Ht%mapM_length. rewrite Ht, length_zip_with. lia.
Qed.

Section LoadedShape.

Context (parse : cell → option Z) (fs : gmap string csv).

Lemma convert_rectangular (df : DataFrame) (col : string) :
  rectangular df → rectangular (convert_date_column parse df col).
Proof.
  intros Hrect. unfold convert_date_column.
  destruct (assoc col (columns df)) as [s|] eqn:Hs; [|done].
  apply rectangular_setitem; [done|].
  unfold to_datetime. rewrite length_fmap.
  apply (getitem_length df col); [done|]. unfold getitem. by rewrite Hs.
Qed.

Lemma converted_rectangular (df : DataFrame) :
  rectangular df → rectangular (converted parse df).
Proof.
  unfold converted. generalize date_columns. intros cols. revert df.
  induction cols as [|col cols IH]; intros df Hrect; simpl; [done|].
  by apply IH, convert_rectangular.
Qed.

Lemma add_delivery_time_rectangular (df1 df : DataFrame) :
  rectangular df1 → add_delivery_time df1 = Ok df → rectangular df.
Proof.
  intros Hrect. unfold add_delivery_time.
  destruct (_ && _); [|by intros [= <-]].
  intros (delivered & Hdel & (purchased & Hpur & (delta & Hdelta &
    (d & Hdays & [= <-])%bind_Ok)%bind_Ok)%bind_Ok)%bind_Ok.
  apply rectangular_setitem; [done|].
  rewrite (mapM_length _ _ _ Hdays).
  eapply length_zip_mapM; [..|exact Hdelta]; by eapply getitem_length.
Qed.

Lemma load_data_rectangular (p : string) (df : DataFrame) :
  load_data parse fs p = Ok df → rectangular df ∧ NoDup (index df).
Proof.
  intros Hload. split.
  - revert Hload. rewrite load_data_stages. destruct (fs !! p) as [f|]; [|done].
    intros (df0 & [Hrect _]%read_csv_rectangular & Hstage)%bind_Ok.
    apply converted_rectangular in Hrect.
    unfold add_total_value in Hstage. destruct (_ && _); [|done].
    apply bind_Ok in Hstage as (price & Hprice & Hstage).
    apply bind_Ok in Hstage as (freight & Hfreight & Hstage).
    apply bind_Ok in Hstage as (total & Htotal & Hstage).
    eapply add_delivery_time_rectangular; [|exact Hstage].
    apply rectangular_setitem; [done|].
    eapply length_zip_mapM; [..|exact Htotal]; by eapply getitem_length.
  - apply load_data_Ok in Hload
      as (f & df0 & _ & _ & _ & _ & [_ Hidx]%read_csv_rectangular & _ & _ & _ &
          -> & _).
    rewrite Hidx. unfold RangeIndex. apply NoDup_fmap_2; [|apply NoDup_seq].
    intros i j [= Hij]. by apply Nat2Z.inj.
Qed.

Lemma load_data_purchase_datetime (p : string) (df : DataFrame) (ts : Series) :
  load_data parse fs p = Ok df →
  getitem df "order_purchase_timestamp" = Ok ts → datetime_like ts.
Proof.
  intros (f & df0 & _ & _ & _ & _ & _ & _ & _ & _ & _ & _ & Hother & _)%load_data_Ok.
  rewrite Hother by done. rewrite getitem_converted. is_date_column.
  intros (s & _ & ->)%fmap_Ok. apply to_datetime_like.
Qed.

End LoadedShape.

Lemma iterrows_index (df : DataFrame) : (iterrows df).*1 = index df.
Proof.
  unfold iterrows. rewrite fmap_imap. simpl.
  induction (index df) as [|l idx IH] using rev_ind; [done|].
  rewrite imap_app. simpl. by rewrite IH.
Qed.

(** ** Claims about the filter pipeline *)

Section Filters.

Context (parse : cell → option Z) (fs : gmap string csv).

(** The filtered table and its complement, row by row, on a loaded table
    that has the three filtered columns. *)
Lemma apply_filters_rows (p : string) (df : DataFrame) (date_range : Z * Z)
    (sc sp : cell) :
  load_data parse fs p = Ok df →
  has_column "order_purchase_timestamp" df = true →
  has_column "product_category_name" df = true →
  has_column "payment_type" df = true →
  ∃ fdf out,
    apply_filters df date_range sc sp = Ok fdf ∧
    filtered_out df date_range sc sp = Ok out ∧
    iterrows fdf
      = filter (λ lr : cell * row, passes date_range sc sp lr.2) (iterrows df) ∧
    iterrows out
      = filter (λ lr : cell * row, ¬ passes date_range sc sp lr.2) (iterrows df).
Proof.
  intros Hload [ts Hts]%has_column_true Hcat Hpay.
  destruct (load_data_rectangular parse fs p df Hload) as [Hrect _].
  pose proof (load_data_purchase_datetime parse fs p df ts Hload Hts) as Hlike.
  pose proof (filter_mask_rows df date_range sc sp ts Hrect Hts Hlike Hcat Hpay)
    as Hmask.
  unfold apply_filters, filtered_out. rewrite Hmask. simpl.
  eexists _, _. split; [done|]. split; [done|].
  rewrite !iterrows_getitem_mask. split.
  - apply (select_bool_decide (λ lr : cell * row, passes date_range sc sp lr.2)).
  - apply (select_mask_not (λ lr : cell * row, passes date_range sc sp lr.2)).
Qed.

End Filters.

(** C4. On every loaded table and for every choice of the three filters,
    the pipeline returns exactly the rows that satisfy the conjunction of
    the active predicates (purchase date in the inclusive range, category
    equal to the selection, payment type equal to the selection), in their
    source order; a filter set to the sentinel ['All'] imposes no
    predicate. The three columns are there whenever [main] filters: it
    reads them to set up the date picker and the two select boxes. *)
Theorem filter_returns_passing_rows
    (parse : cell → option Z) (fs : gmap string csv) (p : string)
    (df : DataFrame) (date_range : Z * Z) (sc sp : cell) :
  load_data parse fs p = Ok df →
  has_column "order_purchase_timestamp" df = true →
  has_column "product_category_name" df = true →
  has_column "payment_type" df = true →
  ∃ fdf,
    apply_filters df date_range sc sp = Ok fdf ∧
    iterrows fdf
      = filter (λ lr : cell * row, passes date_range sc sp lr.2) (iterrows df) ∧
    sublist (iterrows fdf) (iterrows df) ∧
    (∀ col r, selected_by col All r) ∧
    (∀ r, passes date_range All All r ↔ in_date_range date_range r).
Proof.
  intros Hload Hts Hcat Hpay.
  destruct (apply_filters_rows parse fs p df date_range sc sp Hload Hts Hcat Hpay)
    as (fdf & _ & Hfdf & _ & Hrows & _).
  exists fdf. split; [done|]. split; [done|]. split; [|split].
  - rewrite Hrows. apply sublist_filter.
  - intros col r. by left.
  - intros r. unfold passes, selected_by. naive_solver.
Qed.

Lemma filter_returns_passing_rows_witness :
  ∃ fdf,
    apply_filters sample_df (17532, 17534) (Str "toys") All = Ok fdf ∧
    iterrows fdf
      = filter (λ lr : cell * row, passes (17532, 17534) (Str "toys") All lr.2)
          (iterrows sample_df) ∧
    sublist (iterrows fdf) (iterrows sample_df) ∧
    (∀ col r, selected_by col All r) ∧
    (∀ r, passes (17532, 17534) All All r ↔ in_date_range (17532, 17534) r).
Proof.
  apply (filter_returns_passing_rows iso_datetime sample_fs
           "data/cleaned_data.csv" sample_df (17532, 17534) (Str "toys") All).
  - vm_compute. reflexivity.
  - vm_compute. reflexivity.
  - vm_compute. reflexivity.
  - vm_compute. reflexivity.
Defined.

(** C10. A row whose purchase timestamp is missing never passes the filter
    pipeline, whatever the date range and the two selections are: no row of
    the filtered table has a missing purchase timestamp, and the index
    label of such a row of the loaded table is not in the filtered table. *)
Theorem missing_purchase_rows_excluded
    (parse : cell → option Z) (fs : gmap string csv) (p : string)
    (df : DataFrame) (date_range : Z * Z) (sc sp : cell) :
  load_data parse fs p = Ok df →
  has_column "order_purchase_timestamp" df = true →
  has_column "product_category_name" df = true →
  has_column "payment_type" df = true →
  ∃ fdf,
    apply_filters df date_range sc sp = Ok fdf ∧
    (∀ l r, (l, r) ∈ iterrows fdf →
            assoc "order_purchase_timestamp" r ≠ Some NA) ∧
    (∀ l r, (l, r) ∈ iterrows df →
            assoc "order_purchase_timestamp" r = Some NA → l ∉ index fdf).
Proof.
  intros Hload Hts Hcat Hpay.
  destruct (apply_filters_rows parse fs p df date_range sc sp Hload Hts Hcat Hpay)
    as (fdf & _ & Hfdf & _ & Hrows & _).
  destruct (load_data_rectangular parse fs p df Hload) as [_ Hnodup].
  assert (∀ r, passes date_range sc sp r →
               assoc "order_purchase_timestamp" r ≠ Some NA) as Hpass.
  { intros r [Hin _] HNA. unfold in_date_range in Hin. by rewrite HNA in Hin. }
  exists fdf. split; [done|]. split.
  - intros l r. rewrite Hrows, list_elem_of_filter. intros [Hp _]. by apply Hpass.
  - intros l r Hlr HNA. rewrite <-iterrows_index, Hrows.
    intros ((l' & r') & -> & [Hp Hin]%list_elem_of_filter)%list_elem_of_fmap.
    simpl in *. rewrite <-iterrows_index in Hnodup.
    assert (r' = r) as ->; [|by eapply Hpass].
    apply list_elem_of_lookup in Hlr as [i Hi], Hin as [j Hj].
    assert (i = j) as ->.
    { eapply NoDup_lookup; [exact Hnodup|..];
        rewrite list_lookup_fmap; [by rewrite Hi | by rewrite Hj]. }
    congruence.
Qed.

Lemma missing_purchase_rows_excluded_witness :
  ∃ fdf,
    apply_filters gaps_df (17532, 17533) All All = Ok fdf ∧
    (∀ l r, (l, r) ∈ iterrows fdf →
            assoc "order_purchase_timestamp" r ≠ Some NA) ∧
    (∀ l r, (l, r) ∈ iterrows gaps_df →
            assoc "order_purchase_timestamp" r = Some NA → l ∉ index fdf).
Proof.
  apply (missing_purchase_rows_excluded iso_datetime gaps_fs
           "data/cleaned_data.csv" gaps_df (17532, 17533) All All).
  - vm_compute. reflexivity.
  - vm_compute. reflexivity.
  - vm_compute. reflexivity.
  - vm_compute. reflexivity.
Defined.

(** C5, as amended. A category filter other than the sentinel returns only
    rows of that category, and the filtered table and its complement
    partition the loaded table: together they hold every row once, and no
    index label is in both. *)
Theorem category_filter_partitions
    (parse : cell → option Z) (fs : gmap string csv) (p : string)
    (df : DataFrame) (date_range : Z * Z) (sc sp : cell) :
  load_data parse fs p = Ok df →
  has_column "order_purchase_timestamp" df = true →
  has_column "product_category_name" df = true →
  has_column "payment_type" df = true →
  sc ≠ All →
  ∃ fdf out,
    apply_filters df date_range sc sp = Ok fdf ∧
    filtered_out df date_range sc sp = Ok out ∧
    (∀ l r, (l, r) ∈ iterrows fdf → assoc "product_category_name" r = Some sc) ∧
    iterrows fdf ++ iterrows out ≡ₚ iterrows df ∧
    NoDup (index fdf ++ index out).
Proof.
  intros Hload Hts Hcat Hpay Hsc.
  destruct (apply_filters_rows parse fs p df date_range sc sp Hload Hts Hcat Hpay)
    as (fdf & out & Hfdf & Hout & Hrows & Hrows').
  destruct (load_data_rectangular parse fs p df Hload) as [_ Hnodup].
  assert (iterrows fdf ++ iterrows out ≡ₚ iterrows df) as Hperm.
  { rewrite Hrows, Hrows'. apply filter_app_complement. }
  exists fdf, out. repeat split; try done.
  - intros l r. rewrite Hrows, list_elem_of_filter.
    intros [(_ & [?|[_ ?]] & _) _]; done.
  - rewrite <-!iterrows_index, <-fmap_app, Hperm. by rewrite iterrows_index.
Qed.

Lemma category_filter_partitions_witness :
  ∃ fdf out,
    apply_filters sample_df (17532, 17540) (Str "toys") All = Ok fdf ∧
    filtered_out sample_df (17532, 17540) (Str "toys") All = Ok out ∧
    (∀ l r, (l, r) ∈ iterrows fdf →
            assoc "product_category_name" r = Some (Str "toys")) ∧
    iterrows fdf ++ iterrows out ≡ₚ iterrows sample_df ∧
    NoDup (index fdf ++ index out).
Proof.
  apply (category_filter_partitions iso_datetime sample_fs
           "data/cleaned_data.csv" sample_df (17532, 17540) (Str "toys") All).
  - vm_compute. reflexivity.
  - vm_compute. reflexivity.
  - vm_compute. reflexivity.
  - vm_compute. reflexivity.
  - discriminate.
Defined.

(** A category that is called ['All'] cannot be filtered by: selecting it
    is selecting the sentinel, and the rows of the other categories are
    returned as well. *)
Lemma category_filter_sentinel_counterexample :
  ∃ fdf l r,
    load_data iso_datetime gaps_fs "data/cleaned_data.csv" = Ok gaps_df ∧
    apply_filters gaps_df (17532, 17540) (Str "All") All = Ok fdf ∧
    (l, r) ∈ iterrows fdf ∧
    assoc "product_category_name" r = Some (Str "toys").
Proof.
  eexists _, (Int 0), (iloc gaps_df 0). split; [by vm_compute|].
  split; [by vm_compute|]. split; [|by vm_compute].
  apply (bool_decide_unpack _). by vm_compute.
Qed.

(** ** RFM by rows *)

Lemma group_keys_NoDup (keycol : Series) : NoDup (group_keys keycol).
Proof.
  unfold group_keys. rewrite merge_sort_Permutation. apply NoDup_remove_dups.
Qed.

Lemma elem_of_group_keys (keycol : Series) (k : cell) :
  k ∈ group_keys keycol ↔ k ≠ NA ∧ k ∈ keycol.
Proof.
  unfold group_keys.
  rewrite merge_sort_Permutation, elem_of_remove_dups, list_elem_of_filter.
  tauto.
Qed.

Lemma Forall_select {A} (P : A → Prop) (mask : list bool) (l : list A) :
  Forall P l → Forall P (select mask l).
Proof.
  intros H. revert mask. induction H as [|x l Hx _ IH]; intros [|[] mask];
    simpl; auto.
Qed.

Lemma select_fmap {A B} (g : A → B) (mask : list bool) (l : list A) :
  select mask (g <$> l) = g <$> select mask l.
Proof.
  revert mask. induction l as [|x l IH]; intros [|[] mask]; simpl; try done.
  - by rewrite IH.
Qed.

Lemma Series_max_latest (s : Series) :
  datetime_like s → Series_max s = Ok (from_option Ts NA (latest s)).
Proof.
  unfold Series_max. induction 1 as [|c s Hc _ IH]; simpl; [done|].
  rewrite IH. simpl. destruct Hc as [->|[t ->]].
  - by destruct (latest s).
  - destruct (latest s) as [m|]; simpl; [|done].
    unfold cell_max. simpl.
    destruct (Z.compare_spec t m); do 2 f_equal; lia.
Qed.

Lemma sum_present_total (s : Series) :
  numeric s → sum_present s = Ok (total_of s).
Proof.
  induction 1 as [|c s Hc _ IH]; simpl; [done|].
  destruct Hc as [->|[x ->]]; [done|]. by rewrite IH.
Qed.

Lemma column_iterrows (df : DataFrame) (c : string) (s : Series) :
  rectangular df → getitem df c = Ok s → column c (iterrows df) = s.
Proof.
  intros Hrect Hs. unfold column.
  rewrite (fmap_iterrows (λ r : row, default NA (assoc c r))).
  etrans; [|symmetry; apply Series_positions].
  rewrite (getitem_length _ _ _ Hrect Hs).
  apply list_fmap_ext. intros _ i _. simpl. by rewrite (getitem_iloc _ _ _ i Hs).
Qed.

(** The cells a group sees in a column are the cells of the column on the
    rows of the group's customer. *)
Lemma group_column (df : DataFrame) (c : string) (s ids : Series) (k : cell) :
  rectangular df → getitem df c = Ok s →
  getitem df "customer_unique_id" = Ok ids → k ≠ NA →
  select (Series_eq ids k) s = column c (orders_of k df).
Proof.
  intros Hrect Hs Hids Hk.
  rewrite <-(column_iterrows df c s Hrect Hs).
  assert (Series_eq ids k
          = (λ lr : cell * row,
               bool_decide (assoc "customer_unique_id" lr.2 = Some k))
              <$> iterrows df) as ->.
  { rewrite <-(column_iterrows df _ ids Hrect Hids) at 1.
    unfold Series_eq, column. rewrite <-list_fmap_compose.
    apply list_fmap_ext. intros j [l r] Hj. simpl.
    assert ((l, r) ∈ iterrows df) as (i & _ & ->)%elem_of_iterrows
      by (by eapply list_elem_of_lookup_2).
    rewrite (getitem_iloc _ _ _ i Hids). simpl.
    apply eq_bool_prop_intro. unfold cell_eq.
    rewrite andb_True, notna_True, !bool_decide_spec. naive_solver. }
  unfold column at 1. rewrite select_fmap. unfold orders_of.
  by rewrite (select_bool_decide
                (λ lr : cell * row, assoc "customer_unique_id" lr.2 = Some k)).
Qed.

Lemma recency_of_group (df : DataFrame) (ts ids : Series) (k : cell) :
  rectangular df →
  getitem df "order_purchase_timestamp" = Ok ts → datetime_like ts →
  getitem df "customer_unique_id" = Ok ids → k ≠ NA →
  recency_of (from_option Ts NA (latest ts)) (select (Series_eq ids k) ts)
  = Ok (recency df k).
Proof.
  intros Hrect Hts Hlike Hids Hk. unfold recency_of, recency.
  rewrite Series_max_latest by by apply Forall_select.
  rewrite (group_column df _ ts ids k Hrect Hts Hids Hk).
  rewrite (column_iterrows df _ ts Hrect Hts). simpl.
  by destruct (latest ts), (latest (column _ _)).
Qed.

(** [calculate_rfm] in closed form: one row per customer, holding the three
    values of the specification. *)
Lemma calculate_rfm_rows (df : DataFrame) (ts ids oids tv : Series) :
  rectangular df →
  getitem df "order_purchase_timestamp" = Ok ts → datetime_like ts →
  getitem df "customer_unique_id" = Ok ids →
  getitem df "order_id" = Ok oids →
  getitem df "total_value" = Ok tv → numeric tv →
  calculate_rfm df
  = Ok {| index := group_keys ids;
          columns := [ ("recency", recency df <$> group_keys ids);
                       ("frequency", frequency df <$> group_keys ids);
                       ("monetary", monetary df <$> group_keys ids) ] |}.
Proof.
  intros Hrect Hts Hlike Hids Hoids Htv Hnum. unfold calculate_rfm.
  rewrite Hts. simpl. rewrite (Series_max_latest ts Hlike). simpl.
  rewrite Hids. simpl. unfold groupby_agg, agg_column. simpl.
  assert (Forall (λ k, k ≠ NA) (group_keys ids)) as Hkeys.
  { apply Forall_forall. by intros k [? _]%elem_of_group_keys. }
  rewrite Hts. simpl.
  rewrite (mapM_total _ (recency df) (group_keys ids)); last first.
  { eapply Forall_impl; [exact Hkeys|]. intros k Hk. simpl.
    by apply recency_of_group. }
  simpl. rewrite Hoids. simpl.
  rewrite (mapM_total _ (frequency df) (group_keys ids)); last first.
  { eapply Forall_impl; [exact Hkeys|]. intros k Hk. simpl.
    unfold Series_count, frequency.
    by rewrite (group_column df _ oids ids k Hrect Hoids Hids Hk). }
  simpl. rewrite Htv. simpl.
  rewrite (mapM_total _ (monetary df) (group_keys ids)); last first.
  { eapply Forall_impl; [exact Hkeys|]. intros k Hk. simpl.
    unfold Series_sum, monetary.
    rewrite sum_present_total by by apply Forall_select.
    simpl. by rewrite (group_column df _ tv ids k Hrect Htv Hids Hk). }
  reflexivity.
Qed.

(** ** Claims about RFM *)

Lemma iterrows_rfm (df : DataFrame) (keys : list cell) :
  iterrows {| index := keys;
              columns := [ ("recency", recency df <$> keys);
                           ("frequency", frequency df <$> keys);
                           ("monetary", monetary df <$> keys) ] |}
  = (λ k, (k, rfm_record df k)) <$> keys.
Proof.
  unfold iterrows. simpl.
  etrans; [|apply (imap_const (λ k, (k, rfm_record df k)))]. apply imap_ext.
  intros i k Hk. unfold iloc, rfm_record. simpl.
  by rewrite !list_lookup_fmap, Hk.
Qed.

Lemma filter_none {A} (P : A → Prop) `{!∀ x, Decision (P x)} (l : list A) :
  Forall (λ x, ¬ P x) l → filter P l = [].
Proof.
  induction 1 as [|x l Hx _ IH]; [done|]. by rewrite filter_cons_False.
Qed.

Lemma filter_all {A} (P : A → Prop) `{!∀ x, Decision (P x)} (l : list A) :
  Forall P l → filter P l = l.
Proof.
  induction 1 as [|x l Hx _ IH]; [done|]. rewrite filter_cons_True by done.
  by rewrite IH.
Qed.

Lemma filter_ext_in {A} (P Q : A → Prop) `{!∀ x, Decision (P x)}
    `{!∀ x, Decision (Q x)} (l : list A) :
  Forall (λ x, P x ↔ Q x) l → filter P l = filter Q l.
Proof.
  induction 1 as [|x l Hx _ IH]; [done|]. rewrite !filter_cons, IH.
  destruct (decide (P x)), (decide (Q x)); tauto.
Qed.

Lemma filter_key_singleton {B} (g : cell → B) (keys : list cell) (k : cell) :
  NoDup keys → k ∈ keys →
  filter (λ lr : cell * B, lr.1 = k) ((λ k, (k, g k)) <$> keys) = [(k, g k)].
Proof.
  induction 1 as [|k' keys Hk' Hnd IH]; [by intros ?%elem_of_nil|].
  rewrite fmap_cons, filter_cons. simpl.
  intros [->|Hin]%elem_of_cons.
  - rewrite decide_True by done. f_equal.
    apply filter_none. apply Forall_fmap, Forall_forall.
    intros k'' Hk''. simpl. by intros ->.
  - rewrite decide_False by (by intros ->). by apply IH.
Qed.

(** C2. [calculate_rfm] returns one record per customer id of the table:
    the record of a present customer id is there exactly once and holds the
    days between the latest purchase of the data set and the latest purchase
    of the customer, the number of the customer's order rows, and the sum of
    the customer's [total_value]; and there is no other record. *)
Theorem rfm_one_record_per_customer
    (df : DataFrame) (ts ids oids tv : Series) :
  rectangular df →
  getitem df "order_purchase_timestamp" = Ok ts → datetime_like ts →
  getitem df "customer_unique_id" = Ok ids →
  getitem df "order_id" = Ok oids →
  getitem df "total_value" = Ok tv → numeric tv →
  ∃ rfm,
    calculate_rfm df = Ok rfm ∧
    (∀ k, k ≠ NA → k ∈ ids →
          filter (λ lr : cell * row, lr.1 = k) (iterrows rfm)
          = [(k, rfm_record df k)]) ∧
    (∀ k r, (k, r) ∈ iterrows rfm → k ≠ NA ∧ k ∈ ids).
Proof.
  intros Hrect Hts Hlike Hids Hoids Htv Hnum.
  eexists. split; [by eapply calculate_rfm_rows|].
  rewrite iterrows_rfm. split.
  - intros k Hk Hin. apply filter_key_singleton; [apply group_keys_NoDup|].
    by apply elem_of_group_keys.
  - intros k r (k' & [= <- _] & Hk')%list_elem_of_fmap.
    by apply elem_of_group_keys.
Qed.

(** Checks a concrete column cell by cell. *)
Ltac check_cells :=
  repeat first
    [ by apply Forall_nil
    | apply Forall_cons; split; [first [by left | right; by eexists]|] ].

Lemma rfm_one_record_per_customer_witness :
  ∃ rfm,
    calculate_rfm two_orders_df = Ok rfm ∧
    filter (λ lr : cell * row, lr.1 = Str "alice") (iterrows rfm)
    = [(Str "alice",
        [("recency", Int 0); ("frequency", Int 2); ("monetary", Int 30)])].
Proof.
  destruct (rfm_one_record_per_customer two_orders_df
              [Ts (17532 * day_ns); Ts (17537 * day_ns)]
              [Str "alice"; Str "alice"] [Str "o1"; Str "o2"] [Int 10; Int 20])
    as (rfm & Hrfm & Hone & _).
  - by repeat constructor.
  - reflexivity.
  - check_cells.
  - reflexivity.
  - reflexivity.
  - reflexivity.
  - check_cells.
  - exists rfm. split; [done|].
    rewrite (Hone (Str "alice")); [|done|by left].
    apply (bool_decide_unpack _). by vm_compute.
Defined.

(** *** Sums over groups *)

Lemma total_of_cons (c : cell) (s : Series) :
  total_of (c :: s) = (value c + total_of s)%Qc.
Proof. destruct c; simpl; by rewrite ?Qcplus_0_l. Qed.

Lemma total_of_zeros {A} (l : list A) :
  total_of ((λ _, Num 0%Qc) <$> l) = 0%Qc.
Proof.
  induction l as [|x l IH]; [done|].
  by rewrite fmap_cons, total_of_cons, IH, Qcplus_0_l.
Qed.

Lemma total_of_fmap_plus {A} (a b : A → Qc) (l : list A) :
  total_of ((λ k, Num (a k + b k)%Qc) <$> l)
  = (total_of ((λ k, Num (a k)) <$> l) + total_of ((λ k, Num (b k)) <$> l))%Qc.
Proof.
  induction l as [|x l IH]; [by rewrite Qcplus_0_l|].
  rewrite !fmap_cons, !total_of_cons, IH. simpl. ring.
Qed.

Lemma total_of_indicator (o : option cell) (v : Qc) (keys : list cell) :
  NoDup keys →
  total_of ((λ k, Num (if decide (o = Some k) then v else 0%Qc)) <$> keys)
  = if decide (o ∈ Some <$> keys) then v else 0%Qc.
Proof.
  induction 1 as [|k keys Hk _ IH].
  - by rewrite decide_False by apply not_elem_of_nil.
  - rewrite !fmap_cons, total_of_cons, IH. simpl.
    assert (Some k ∈ Some <$> keys → False) as Hk'.
    { by intros (k' & [= <-] & ?)%list_elem_of_fmap. }
    repeat case_decide; subst; try ring; exfalso; set_solver.
Qed.

(** The sums of the groups add up to the sum over the rows that belong to a
    group. *)
Lemma total_of_groups (c : string) (key : cell * row → option cell)
    (keys : list cell) (rows : list (cell * row)) :
  NoDup keys →
  total_of ((λ k, Num (total_of (column c (filter (λ lr, key lr = Some k) rows))))
              <$> keys)
  = total_of (column c (filter (λ lr, key lr ∈ Some <$> keys) rows)).
Proof.
  intros Hnd. induction rows as [|lr rows IH].
  - apply total_of_zeros.
  - rewrite filter_cons.
    trans (total_of ((λ k, Num ((if decide (key lr = Some k)
                                 then value (default NA (assoc c lr.2)) else 0)
                                + total_of (column c
                                    (filter (λ lr, key lr = Some k) rows)))%Qc)
                       <$> keys)).
    { f_equal. apply list_fmap_ext. intros _ k _. simpl. f_equal.
      rewrite filter_cons. destruct (decide (key lr = Some k)).
      - unfold column. by rewrite fmap_cons, total_of_cons.
      - by rewrite Qcplus_0_l. }
    rewrite total_of_fmap_plus, IH, total_of_indicator by done.
    destruct (decide (key lr ∈ Some <$> keys)).
    + unfold column. by rewrite fmap_cons, total_of_cons.
    + by rewrite Qcplus_0_l.
Qed.

Lemma total_of_nonneg (s : Series) :
  Forall (λ c, c = NA ∨ ∃ x, c = Num x ∧ (0 ≤ x)%Qc) s → (0 ≤ total_of s)%Qc.
Proof.
  induction 1 as [|c s Hc _ IH]; simpl; [done|].
  destruct Hc as [->|(x & -> & Hx)]; [done|].
  rewrite <-(Qcplus_0_l 0). by apply Qcplus_le_compat.
Qed.

(** C6, as amended. The monetary values are non-negative when the
    [total_value] cells are non-negative or missing, and they add up to the
    sum of [total_value] over the rows that carry a customer id: over all
    rows when no row lacks one. *)
Theorem rfm_monetary_sums (df : DataFrame) (ts ids oids tv : Series) :
  rectangular df →
  getitem df "order_purchase_timestamp" = Ok ts → datetime_like ts →
  getitem df "customer_unique_id" = Ok ids →
  getitem df "order_id" = Ok oids →
  getitem df "total_value" = Ok tv → numeric tv →
  ∃ rfm mon,
    calculate_rfm df = Ok rfm ∧
    getitem rfm "monetary" = Ok mon ∧
    (Forall (λ c, c = NA ∨ ∃ x, c = Num x ∧ (0 ≤ x)%Qc) tv →
     Forall (λ c, ∃ x, c = Num x ∧ (0 ≤ x)%Qc) mon) ∧
    total_of mon
    = total_of (column "total_value"
                  (filter (λ lr : cell * row, has_customer lr.2) (iterrows df))) ∧
    (Forall (λ c, c ≠ NA) ids → total_of mon = total_of tv).
Proof.
  intros Hrect Hts Hlike Hids Hoids Htv Hnum.
  eexists _, (monetary df <$> group_keys ids).
  split; [by eapply calculate_rfm_rows|]. split; [done|].
  assert (Forall (λ lr : cell * row,
                    ∃ x, x ∈ ids ∧ assoc "customer_unique_id" lr.2 = Some x)
            (iterrows df)) as Hcust.
  { apply Forall_forall. intros [l r] (i & Hi & ->)%elem_of_iterrows. simpl.
    rewrite (getitem_iloc _ _ _ i Hids).
    apply lookup_lt_Some in Hi.
    rewrite <-(getitem_length df _ ids Hrect Hids) in Hi.
    apply lookup_lt_is_Some in Hi as [x Hx]. rewrite Hx. simpl.
    exists x. split; [by eapply list_elem_of_lookup_2 | done]. }
  assert (Forall (λ lr : cell * row,
                    assoc "customer_unique_id" lr.2 ∈ Some <$> group_keys ids
                    ↔ has_customer lr.2) (iterrows df)) as Hrows.
  { eapply Forall_impl; [exact Hcust|]. intros [l r] (x & Hx & Hr). simpl in *.
    unfold has_customer. rewrite Hr. simpl. split.
    - intros (k & [= <-] & Hk%elem_of_group_keys)%list_elem_of_fmap. tauto.
    - intros Hna. apply list_elem_of_fmap. exists x. split; [done|].
      by apply elem_of_group_keys. }
  assert (total_of (monetary df <$> group_keys ids)
          = total_of (column "total_value"
              (filter (λ lr : cell * row, has_customer lr.2) (iterrows df))))
    as Hsum.
  { rewrite <-(filter_ext_in _ _ _ Hrows).
    apply (total_of_groups "total_value"
             (λ lr : cell * row, assoc "customer_unique_id" lr.2)),
          group_keys_NoDup. }
  split; [|split; [done|]].
  - intros Hnonneg. apply Forall_fmap, Forall_forall.
    intros k [Hk _]%elem_of_group_keys. simpl. eexists. split; [done|].
    rewrite <-(group_column df _ tv ids k Hrect Htv Hids Hk).
    by apply total_of_nonneg, Forall_select.
  - intros Hall. rewrite Hsum, filter_all;
      [by rewrite (column_iterrows df _ tv Hrect Htv)|].
    eapply Forall_impl; [exact Hcust|]. intros [l r] (x & Hx & Hr). simpl in *.
    unfold has_customer. rewrite Hr. simpl.
    by apply (proj1 (Forall_forall _ _) Hall).
Qed.

Lemma rfm_monetary_sums_witness :
  ∃ ids tv,
    getitem sample_df "customer_unique_id" = Ok ids ∧
    getitem sample_df "total_value" = Ok tv ∧
    ∃ rfm mon,
    calculate_rfm sample_df = Ok rfm ∧
    getitem rfm "monetary" = Ok mon ∧
    (Forall (λ c, c = NA ∨ ∃ x, c = Num x ∧ (0 ≤ x)%Qc) tv →
     Forall (λ c, ∃ x, c = Num x ∧ (0 ≤ x)%Qc) mon) ∧
    total_of mon
    = total_of (column "total_value"
                  (filter (λ lr : cell * row, has_customer lr.2)
                          (iterrows sample_df))) ∧
    (Forall (λ c, c ≠ NA) ids → total_of mon = total_of tv).
Proof.
  do 2 eexists.
  split; [vm_compute; reflexivity|]. split; [vm_compute; reflexivity|].
  eapply (rfm_monetary_sums sample_df).
  - vm_compute. by repeat constructor.
  - vm_compute. reflexivity.
  - check_cells.
  - vm_compute. reflexivity.
  - vm_compute. reflexivity.
  - vm_compute. reflexivity.
  - check_cells.
Defined.

(** The sum over customers misses the order without customer id, and a
    negative [total_value] gives a negative monetary value. *)
Lemma rfm_monetary_sums_counterexample :
  (∃ rfm mon tv,
     load_data iso_datetime gaps_fs "data/cleaned_data.csv" = Ok gaps_df ∧
     calculate_rfm gaps_df = Ok rfm ∧
     getitem rfm "monetary" = Ok mon ∧
     getitem gaps_df "total_value" = Ok tv ∧
     total_of mon = Qc_of_Z 44 ∧ total_of tv = Qc_of_Z 50 ∧
     total_of mon ≠ total_of tv) ∧
  (∃ rfm mon,
     load_data iso_datetime {[ "data/cleaned_data.csv" := refund_csv ]}
       "data/cleaned_data.csv" = Ok refund_df ∧
     calculate_rfm refund_df = Ok rfm ∧
     getitem rfm "monetary" = Ok mon ∧
     mon = [Int (-15)] ∧
     ¬ Forall (λ c, ∃ x, c = Num x ∧ (0 ≤ x)%Qc) mon).
Proof.
  split.
  - eexists _, _, _. split; [by vm_compute|].
    split; [by vm_compute|]. split; [by vm_compute|]. split; [by vm_compute|].
    repeat split; apply (bool_decide_unpack _); by vm_compute.
  - eexists _, _. split; [by vm_compute|].
    split; [by vm_compute|]. split; [by vm_compute|].
    split; [apply (bool_decide_unpack _); by vm_compute|].
    intros [(x & [= <-] & Hx) _]%Forall_cons. by apply Hx.
Qed.

(** ** Aggregations of an empty table *)

Lemma empty_getitem (df : DataFrame) (c : string) :
  empty df → has_column c df = true → getitem df c = Ok [].
Proof.
  intros [_ Hcols] [s Hs]%has_column_true. rewrite Hs. f_equal.
  unfold getitem in Hs. destruct (assoc c (columns df)) as [s'|] eqn:Hc; [|done].
  injection Hs as ->. apply assoc_elem_of in Hc.
  by apply (proj1 (Forall_forall _ _) Hcols (c, s)).
Qed.

Lemma getitem_mask_nothing (df : DataFrame) (mask : list bool) :
  Forall (λ b, b = false) mask → empty (getitem_mask df mask).
Proof.
  intros Hmask.
  assert (∀ A (l : list A), select mask l = []) as Hsel.
  { intros A. induction Hmask as [|b mask -> _ IH]; intros [|x l]; simpl; auto. }
  split; simpl; [apply Hsel|].
  apply Forall_fmap, Forall_true. intros [c s]. simpl. apply Hsel.
Qed.

(** Reads the columns of an empty table, one [df[c]] after the other. *)
Ltac read_empty_columns Hget :=
  repeat (rewrite Hget by (apply (bool_decide_unpack _); by vm_compute); simpl).

(** C7. On the empty filtered table no aggregation raises: the daily
    series, the two demographic tables, the category insights, the two
    payment tables and the RFM table are empty, and the overview metrics,
    which are scalars, are those of no data (no orders, no revenue, no
    mean). *)
Theorem aggregations_of_empty_table (df : DataFrame) :
  empty df →
  Forall (λ c, has_column c df = true) schema →
  create_overview_metrics df
  = Ok {| total_orders := Int 0; total_revenue := Int 0;
          avg_order_value := NA; avg_delivery_time := NA |} ∧
  (∃ daily, create_time_series df = Ok daily ∧ empty daily) ∧
  (∃ states cities,
     create_customer_demographics df = Ok (states, cities) ∧
     empty states ∧ empty cities) ∧
  (∃ sales, create_product_insights df = Ok sales ∧ empty sales) ∧
  (∃ payments installments,
     create_payment_analysis df = Ok (payments, installments) ∧
     empty payments ∧ empty installments) ∧
  (∃ rfm, calculate_rfm df = Ok rfm ∧ empty rfm).
Proof.
  intros Hempty Hschema.
  assert (∀ c, c ∈ schema → getitem df c = Ok []) as Hget.
  { intros c Hc. apply empty_getitem; [done|].
    by apply (proj1 (Forall_forall _ _) Hschema). }
  split; [|split; [|split; [|split; [|split]]]].
  - unfold create_overview_metrics. read_empty_columns Hget.
    f_equal. apply (bool_decide_unpack _). by vm_compute.
  - unfold create_time_series. read_empty_columns Hget.
    unfold groupby_agg, agg_column. simpl. read_empty_columns Hget.
    eexists. split; [done|]. split; [done | by repeat constructor].
  - unfold create_customer_demographics. read_empty_columns Hget.
    unfold groupby_agg, agg_column. simpl. read_empty_columns Hget.
    eexists _, _. split; [done|].
    split; (split; [done | by repeat constructor]).
  - unfold create_product_insights. read_empty_columns Hget.
    unfold groupby_agg, agg_column. simpl. read_empty_columns Hget.
    eexists. split; [done|]. split; [done | by repeat constructor].
  - unfold create_payment_analysis. read_empty_columns Hget.
    unfold groupby_agg, agg_column. simpl. read_empty_columns Hget.
    eexists _, _. split; [done|].
    split; (split; [done | by repeat constructor]).
  - unfold calculate_rfm. read_empty_columns Hget.
    unfold groupby_agg, agg_column. simpl. read_empty_columns Hget.
    eexists. split; [done|]. split; [done | by repeat constructor].
Qed.

Lemma aggregations_of_empty_table_witness :
  create_overview_metrics sample_empty_df
  = Ok {| total_orders := Int 0; total_revenue := Int 0;
          avg_order_value := NA; avg_delivery_time := NA |} ∧
  (∃ daily, create_time_series sample_empty_df = Ok daily ∧ empty daily) ∧
  (∃ states cities,
     create_customer_demographics sample_empty_df = Ok (states, cities) ∧
     empty states ∧ empty cities) ∧
  (∃ sales, create_product_insights sample_empty_df = Ok sales ∧ empty sales) ∧
  (∃ payments installments,
     create_payment_analysis sample_empty_df = Ok (payments, installments) ∧
     empty payments ∧ empty installments) ∧
  (∃ rfm, calculate_rfm sample_empty_df = Ok rfm ∧ empty rfm).
Proof.
  apply (aggregations_of_empty_table sample_empty_df).
  - vm_compute. split; [done | by repeat constructor].
  - vm_compute. by repeat constructor.
Defined.

(** * Further properties of the loader *)

Lemma Series_add_numeric (a b : Series) :
  numeric a → numeric b →
  ∃ t, Series_add a b = Ok t ∧ numeric t.
Proof.
  intros Ha. revert b. induction Ha as [|x a Hx _ IH]; intros b Hb.
  - exists []. split; [done | constructor].
  - destruct Hb as [|y b Hy Hb]; [exists []; split; [done | constructor]|].
    destruct (IH b Hb) as (t & Ht & Hnum). unfold Series_add in *. simpl.
    destruct Hx as [->|[x' ->]], Hy as [->|[y' ->]]; simpl; rewrite Ht; simpl;
      eexists; (split; [done|]); constructor; eauto.
Qed.

(** X1. [load_data] keeps the table of the file: the rows are those of the
    file, in order and labelled 0, 1, 2, ...; every column is as long as the
    index; and every column other than the five date columns and the two
    derived ones is the column of the file, cell by cell. *)
Theorem load_data_keeps_the_table
    (parse : cell → option Z) (fs : gmap string csv) (p : string)
    (f : csv) (df0 df : DataFrame) :
  fs !! p = Some f → read_csv f = Ok df0 → load_data parse fs p = Ok df →
  index df = RangeIndex (length (records f)) ∧
  rectangular df ∧
  ∀ c, c ∉ date_columns → c ≠ "total_value" → c ≠ "delivery_time" →
       getitem df c = getitem df0 c.
Proof.
  intros Hf Hread Hload.
  destruct (load_data_rectangular parse fs p df Hload) as [Hrect _].
  apply load_data_Ok in Hload
    as (f' & df0' & _ & _ & _ & Hf' & Hread' & _ & _ & _ & Hidx & _ & Hother & _).
  rewrite Hf in Hf'. injection Hf' as <-.
  rewrite Hread in Hread'. injection Hread' as <-.
  split; [|split; [done|]].
  - rewrite Hidx. by apply read_csv_rectangular.
  - intros c Hc Htv Hdt. rewrite Hother, getitem_converted by done.
    by rewrite decide_False.
Qed.

Lemma load_data_keeps_the_table_witness :
  index sample_df = RangeIndex 3 ∧
  rectangular sample_df ∧
  ∀ c, c ∉ date_columns → c ≠ "total_value" → c ≠ "delivery_time" →
       getitem sample_df c
       = getitem {| index := RangeIndex 3;
                    columns := imap (λ j c, (c, (λ r : list cell, default NA (r !! j))
                                                  <$> records sample_csv))
                                    (header sample_csv) |} c.
Proof.
  apply (load_data_keeps_the_table iso_datetime sample_fs
           "data/cleaned_data.csv" sample_csv).
  - vm_compute. reflexivity.
  - vm_compute. reflexivity.
  - vm_compute. reflexivity.
Defined.

(** X2. The date columns of a loaded table hold timestamps and missing
    cells only, and a cell of the file that the parser reads as a date is
    that timestamp in the table. *)
Theorem parsed_dates_become_timestamps
    (parse : cell → option Z) (fs : gmap string csv) (p : string)
    (f : csv) (df0 df : DataFrame) (col : string) (s : Series) :
  fs !! p = Some f → read_csv f = Ok df0 → load_data parse fs p = Ok df →
  col ∈ date_columns → getitem df0 col = Ok s →
  ∃ s', getitem df col = Ok s' ∧ datetime_like s' ∧ length s' = length s ∧
        ∀ i v t, s !! i = Some v → v ≠ NA → parse v = Some t →
                 s' !! i = Some (Ts t).
Proof.
  intros Hf Hread Hload Hcol Hs.
  apply load_data_Ok in Hload
    as (f' & df0' & _ & _ & _ & Hf' & Hread' & _ & _ & _ & _ & _ & Hother & _).
  rewrite Hf in Hf'. injection Hf' as <-.
  rewrite Hread in Hread'. injection Hread' as <-.
  exists (to_datetime parse s). split; [|split; [|split]].
  - rewrite Hother.
    + rewrite getitem_converted, decide_True by done. by rewrite Hs.
    + intros ->. apply (bool_decide_pack _) in Hcol. by vm_compute in Hcol.
    + intros ->. apply (bool_decide_pack _) in Hcol. by vm_compute in Hcol.
  - apply to_datetime_like.
  - unfold to_datetime. by rewrite length_fmap.
  - intros i v t Hv Hna Hparse. unfold to_datetime.
    rewrite list_lookup_fmap, Hv. simpl. unfold to_datetime_cell.
    rewrite Hparse. by destruct v.
Qed.

Lemma parsed_dates_become_timestamps_witness :
  ∃ s', getitem sample_df "order_purchase_timestamp" = Ok s' ∧
        datetime_like s' ∧ length s' = 3%nat ∧
        ∀ i v t,
          [Str "2018-01-01 10:00:00"; Str "2018-01-06 10:00:00";
           Str "2018-01-03 08:30:00"] !! i = Some v →
          v ≠ NA → iso_datetime v = Some t → s' !! i = Some (Ts t).
Proof.
  eapply (parsed_dates_become_timestamps iso_datetime sample_fs
            "data/cleaned_data.csv" sample_csv _ sample_df
           "order_purchase_timestamp"
           [Str "2018-01-01 10:00:00"; Str "2018-01-06 10:00:00";
            Str "2018-01-03 08:30:00"]).
  - vm_compute. reflexivity.
  - vm_compute. reflexivity.
  - vm_compute. reflexivity.
  - apply (bool_decide_unpack _). by vm_compute.
  - vm_compute. reflexivity.
Defined.

Lemma has_column_getitem (c : string) (df df' : DataFrame) :
  getitem df c = getitem df' c → has_column c df = has_column c df'.
Proof.
  intros Heq. destruct (has_column c df') eqn:H'.
  - apply has_column_true in H' as [s Hs]. apply has_column_true. exists s.
    by rewrite Heq.
  - apply has_column_false in H'. apply has_column_false. by rewrite Heq.
Qed.

Lemma Series_mean_numeric (s : Series) : numeric s → is_Ok (Series_mean s).
Proof.
  intros Hs. unfold Series_mean. rewrite (sum_present_total s Hs). simpl.
  destruct (length _); by eexists.
Qed.

(** X3. [load_data] accepts a file that lacks one of the two timestamp
    columns behind [delivery_time], and then adds no such column; but
    [create_overview_metrics] reads [delivery_time] without a check, so on
    that table it raises the missing-key error. *)
Theorem overview_needs_delivery_time
    (parse : cell → option Z) (fs : gmap string csv) (p : string)
    (f : csv) (df0 : DataFrame) (price freight order_id : Series) :
  fs !! p = Some f → read_csv f = Ok df0 →
  getitem df0 "price" = Ok price → numeric price →
  getitem df0 "freight_value" = Ok freight → numeric freight →
  getitem df0 "order_id" = Ok order_id →
  has_column "order_delivered_customer_date" df0
    && has_column "order_purchase_timestamp" df0 = false →
  has_column "delivery_time" df0 = false →
  ∃ df, load_data parse fs p = Ok df ∧
        has_column "delivery_time" df = false ∧
        create_overview_metrics df = Raise KeyError.
Proof.
  intros Hf Hread Hprice Hpnum Hfreight Hfnum Hoid Hdates Hdt.
  destruct (Series_add_numeric price freight Hpnum Hfnum) as (total & Htotal & Hnum).
  assert (getitem (converted parse df0) "price" = Ok price) as Hprice'.
  { rewrite getitem_converted. by not_date_column. }
  assert (getitem (converted parse df0) "freight_value" = Ok freight) as Hfreight'.
  { rewrite getitem_converted. by not_date_column. }
  set (df1 := setitem (converted parse df0) "total_value" total).
  assert (∀ c, c ≠ "total_value" → getitem df1 c = getitem (converted parse df0) c)
    as Hdf1.
  { intros c Hc. unfold df1. rewrite getitem_setitem. by rewrite decide_False. }
  assert (∀ c, c ≠ "total_value" → has_column c df1 = has_column c df0) as Hcols.
  { intros c Hc. rewrite (has_column_getitem c df1 (converted parse df0)) by auto.
    destruct (has_column c df0) eqn:Hc0.
    - apply has_column_true in Hc0 as [s Hs]. apply has_column_true.
      rewrite getitem_converted, Hs. case_decide; by eexists.
    - apply has_column_false in Hc0. apply has_column_false.
      rewrite getitem_converted, Hc0. by case_decide. }
  exists df1. split; [|split].
  - rewrite load_data_stages, Hf, Hread. simpl. unfold add_total_value.
    rewrite (proj2 (has_column_true _ _)), (proj2 (has_column_true _ _)) by eauto.
    simpl. rewrite Hprice'. simpl. rewrite Hfreight'. simpl. rewrite Htotal. simpl.
    unfold add_delivery_time. fold df1. by rewrite !Hcols, Hdates by done.
  - by rewrite Hcols.
  - unfold create_overview_metrics.
    rewrite (Hdf1 "order_id") by done. rewrite getitem_converted.
    not_date_column. rewrite Hoid. simpl.
    assert (getitem df1 "total_value" = Ok total) as ->.
    { unfold df1. by rewrite getitem_setitem. }
    simpl. unfold Series_sum. rewrite (sum_present_total total Hnum). simpl.
    destruct (Series_mean_numeric total Hnum) as [m ->]. simpl.
    rewrite (Hdf1 "delivery_time") by done. rewrite getitem_converted.
    not_date_column. apply has_column_false in Hdt. by rewrite Hdt.
Qed.

Lemma overview_needs_delivery_time_witness :
  ∃ df, load_data iso_datetime {[ "data/cleaned_data.csv" := refund_csv ]}
          "data/cleaned_data.csv" = Ok df ∧
        has_column "delivery_time" df = false ∧
        create_overview_metrics df = Raise KeyError.
Proof.
  eapply (overview_needs_delivery_time iso_datetime
            {[ "data/cleaned_data.csv" := refund_csv ]}
            "data/cleaned_data.csv" refund_csv).
  - vm_compute. reflexivity.
  - vm_compute. reflexivity.
  - vm_compute. reflexivity.
  - check_cells.
  - vm_compute. reflexivity.
  - check_cells.
  - vm_compute. reflexivity.
  - vm_compute. reflexivity.
  - vm_compute. reflexivity.
Defined.

(** * The order of keys and values *)

Lemma Ascii_compare_Lt_trans (a b c : ascii) :
  Ascii.compare a b = Lt → Ascii.compare b c = Lt → Ascii.compare a c = Lt.
Proof.
  unfold Ascii.compare. rewrite !N.compare_lt_iff. apply N.lt_trans.
Qed.

Lemma Ascii_compare_refl (a : ascii) : Ascii.compare a a = Eq.
Proof. unfold Ascii.compare. apply N.compare_refl. Qed.

Lemma String_compare_Lt_trans (a b c : string) :
  String.compare a b = Lt → String.compare b c = Lt → String.compare a c = Lt.
Proof.
  revert b c. induction a as [|x a IH]; intros [|y b] [|z c]; simpl; try done.
  destruct (Ascii.compare x y) eqn:Hxy; try done;
    destruct (Ascii.compare y z) eqn:Hyz; try done.
  - apply Ascii.compare_eq_iff in Hxy as ->, Hyz as ->.
    rewrite Ascii_compare_refl. apply IH.
  - apply Ascii.compare_eq_iff in Hxy as ->. by rewrite Hyz.
  - apply Ascii.compare_eq_iff in Hyz as <-. by rewrite Hxy.
  - by rewrite (Ascii_compare_Lt_trans x y z).
Qed.

Lemma String_compare_le_trans (a b c : string) :
  String.compare a b ≠ Gt → String.compare b c ≠ Gt → String.compare a c ≠ Gt.
Proof.
  destruct (String.compare a b) eqn:Hab; [| |done];
    (destruct (String.compare b c) eqn:Hbc; [| |done]); intros _ _.
  - apply String.compare_eq_iff in Hab as ->. by rewrite Hbc.
  - apply String.compare_eq_iff in Hab as ->. by rewrite Hbc.
  - apply String.compare_eq_iff in Hbc as <-. by rewrite Hab.
  - by rewrite (String_compare_Lt_trans a b c).
Qed.

Lemma String_compare_le_total (a b : string) :
  String.compare a b ≠ Gt ∨ String.compare b a ≠ Gt.
Proof.
  rewrite (String.compare_antisym b a). destruct (String.compare a b); auto.
Qed.

(** [cell_before] by cases: by value inside a type, by rank across types. *)
Lemma cell_before_cases (a b : cell) :
  cell_before a b ↔
  match a, b with
  | Num x, Num y => (x ≤ y)%Qc
  | Str x, Str y => String.compare x y ≠ Gt
  | Ts x, Ts y | Td x, Td y | Date x, Date y => x ≤ y
  | _, _ => rank a ≤ rank b
  end.
Proof.
  unfold cell_before, cell_leb.
  destruct a, b; simpl; rewrite ?bool_decide_eq_true; try done.
  - rewrite Qcle_alt. by destruct (_ ?= _)%Qc.
  - by destruct (String.compare _ _).
  - rewrite <-Z.compare_le_iff. by destruct (_ ?= _).
  - rewrite <-Z.compare_le_iff. by destruct (_ ?= _).
  - rewrite <-Z.compare_le_iff. by destruct (_ ?= _).
Qed.

Global Instance cell_before_total : Total cell_before.
Proof.
  intros a b. rewrite !cell_before_cases.
  destruct a, b; simpl; try lia.
  - destruct (Qclt_le_dec x x0); [left; by apply Qclt_le_weak | by right].
  - apply String_compare_le_total.
Qed.

Global Instance cell_before_trans : Transitive cell_before.
Proof.
  intros a b c. rewrite !cell_before_cases.
  destruct a, b, c; simpl; try lia.
  - apply Qcle_trans.
  - apply String_compare_le_trans.
Qed.

Global Instance value_before_total ascending : Total (value_before ascending).
Proof.
  intros p q. unfold value_before. destruct ascending; apply cell_before_total.
Qed.

Global Instance value_before_trans ascending : Transitive (value_before ascending).
Proof.
  intros p q r. unfold value_before. destruct ascending.
  - apply cell_before_trans.
  - intros ? ?. by eapply cell_before_trans.
Qed.

(** * Further properties of the group-by tables *)

Lemma group_keys_sorted (keycol : Series) :
  StronglySorted cell_before (group_keys keycol).
Proof. apply (StronglySorted_merge_sort cell_before). Qed.

(** The shape of every [groupby(...).agg(...)] table. *)
Lemma groupby_agg_Ok (df : DataFrame) (keycol : Series)
    (spec : list (string * aggfun)) (g : DataFrame) :
  groupby_agg df keycol spec = Ok g →
  index g = group_keys keycol ∧
  Forall2 (λ (cf : string * aggfun) (col : string * Series),
             col.1 = cf.1 ∧
             ∃ s, getitem df cf.1 = Ok s ∧
                  Forall2 (λ k y, cf.2 (select (Series_eq keycol k) s) = Ok y)
                          (group_keys keycol) col.2)
          spec (columns g).
Proof.
  unfold groupby_agg.
  intros (cols & Hcols%mapM_Ok & [= <-])%bind_Ok. simpl. split; [done|].
  eapply Forall2_impl; [exact Hcols|]. intros cf col. unfold agg_column.
  intros (s & Hs & (vals & Hvals%mapM_Ok & [= <-])%bind_Ok)%bind_Ok. eauto.
Qed.

Lemma groupby_agg_rectangular (df : DataFrame) (keycol : Series)
    (spec : list (string * aggfun)) (g : DataFrame) :
  groupby_agg df keycol spec = Ok g → rectangular g.
Proof.
  intros [Hidx Hcols]%groupby_agg_Ok. unfold rectangular. rewrite Hidx.
  induction Hcols as [|cf col spec' cols (_ & s & _ & Hvals) _ IH];
    constructor; [|done].
  symmetry. by eapply Forall2_length.
Qed.

Lemma dates_of_cells (l : Series) :
  Forall (λ c, ∃ d, c = Date d) l → ∃ ds, l = Date <$> ds.
Proof.
  induction 1 as [|c l [d ->] _ [ds ->]]; [by exists []|]. by exists (d :: ds).
Qed.

Global Instance Date_inj : Inj (=) (=) Date.
Proof. by intros ?? [=]. Qed.

Lemma StronglySorted_dates (ds : list Z) :
  StronglySorted cell_before (Date <$> ds) → StronglySorted Z.le ds.
Proof.
  induction ds as [|d ds IH]; [constructor|].
  rewrite fmap_cons. intros [Hall Hsorted]%StronglySorted_cons.
  constructor; [by apply IH|].
  apply (proj1 (Forall_fmap Date _ ds)) in Hall.
  eapply Forall_impl; [exact Hall|].
  intros d'. simpl. by rewrite cell_before_cases.
Qed.

Lemma StronglySorted_strict (ds : list Z) :
  StronglySorted Z.le ds → NoDup ds → StronglySorted Z.lt ds.
Proof.
  induction 1 as [|d ds Hsorted IH Hall]; intros Hnd; constructor.
  - apply IH. by apply NoDup_cons in Hnd as [_ ?].
  - apply NoDup_cons in Hnd as [Hd _].
    apply Forall_forall. intros d' Hd'.
    pose proof (proj1 (Forall_forall _ _) Hall d' Hd').
    assert (d ≠ d') by (by intros ->). lia.
Qed.

(** X4. The days of the daily series come in increasing order, each day
    once: they are the calendar dates on which the table has a purchase,
    and the rows of the series are numbered 0, 1, 2, ... *)
Theorem daily_series_is_in_date_order
    (df daily : DataFrame) (ts : Series) :
  getitem df "order_purchase_timestamp" = Ok ts →
  create_time_series df = Ok daily →
  ∃ ds : list Z,
    getitem daily "order_purchase_timestamp" = Ok (Date <$> ds) ∧
    StronglySorted Z.lt ds ∧
    (∀ d, d ∈ ds ↔ ∃ t, Ts t ∈ ts ∧ d = t `div` day_ns) ∧
    index daily = RangeIndex (length ds) ∧
    rectangular daily.
Proof.
  intros Hts. unfold create_time_series. rewrite Hts. simpl.
  intros (d & Hd%mapM_Ok & (g & Hg & [= <-])%bind_Ok)%bind_Ok.
  pose proof (groupby_agg_rectangular _ _ _ _ Hg) as Hrect.
  apply groupby_agg_Ok in Hg as [Hidx _].
  assert (∀ k, k ∈ group_keys d ↔ ∃ t, Ts t ∈ ts ∧ k = Date (t `div` day_ns))
    as Hkeys.
  { intros k. rewrite elem_of_group_keys. split.
    - intros [Hk (i & Hi)%list_elem_of_lookup].
      destruct (Forall2_lookup_r _ _ _ _ _ Hd Hi) as (c & Hc & Hdate).
      destruct c; simplify_eq/=. exists ns. split; [|done].
      by eapply list_elem_of_lookup_2.
    - intros (t & (i & Hi)%list_elem_of_lookup & ->). split; [done|].
      destruct (Forall2_lookup_l _ _ _ _ _ Hd Hi) as (c & Hc & Hdate).
      simplify_eq/=. by eapply list_elem_of_lookup_2. }
  destruct (dates_of_cells (group_keys d)) as [ds Hds].
  { apply Forall_forall. intros k (t & _ & ->)%Hkeys. by eexists. }
  exists ds. unfold reset_index, getitem. simpl. rewrite Hidx, Hds.
  split; [done|]. split; [|split; [|split]].
  - apply StronglySorted_strict.
    + apply StronglySorted_dates. rewrite <-Hds. apply group_keys_sorted.
    + pose proof (group_keys_NoDup d) as Hnd. rewrite Hds in Hnd.
      by apply (NoDup_fmap Date) in Hnd.
  - intros x. rewrite <-(list_elem_of_fmap_inj Date).
    rewrite <-Hds, Hkeys. naive_solver.
  - by rewrite !length_fmap.
  - unfold rectangular in *. simpl. rewrite length_RangeIndex.
    constructor; [done|]. by rewrite <-Hds, <-Hidx.
Qed.

Lemma daily_series_is_in_date_order_witness :
  ∃ ds : list Z,
    getitem
      {| index := RangeIndex 3;
         columns := [ ("order_purchase_timestamp",
                       [Date 17532; Date 17534; Date 17537]);
                      ("order_id", [Int 1; Int 1; Int 1]);
                      ("total_value", [Int 10; Int 34; Int 20]) ] |}
      "order_purchase_timestamp" = Ok (Date <$> ds) ∧
    StronglySorted Z.lt ds ∧
    (∀ d, d ∈ ds ↔
          ∃ t, Ts t ∈ [Ts 1514800800000000000; Ts 1515232800000000000;
                       Ts 1514968200000000000]
               ∧ d = t `div` day_ns) ∧
    RangeIndex 3 = RangeIndex (length ds) ∧
    rectangular
      {| index := RangeIndex 3;
         columns := [ ("order_purchase_timestamp",
                       [Date 17532; Date 17534; Date 17537]);
                      ("order_id", [Int 1; Int 1; Int 1]);
                      ("total_value", [Int 10; Int 34; Int 20]) ] |}.
Proof.
  apply (daily_series_is_in_date_order sample_df).
  - vm_compute. reflexivity.
  - apply (bool_decide_unpack _). by vm_compute.
Defined.

Lemma getitem_getitem_mask (df : DataFrame) (mask : list bool) (c : string) :
  getitem (getitem_mask df mask) c = select mask <$> getitem df c.
Proof.
  unfold getitem, getitem_mask. simpl. rewrite assoc_fmap.
  by destruct (assoc c (columns df)).
Qed.

Lemma length_select {A B} (mask : list bool) (a : list A) (b : list B) :
  length a = length b → length (select mask a) = length (select mask b).
Proof.
  revert a b. induction mask as [|m mask IH]; intros [|x a] [|y b] [=]; simpl;
    try done.
  destruct m; simpl; auto.
Qed.

Lemma select_all {A} (mask : list bool) (l : list A) :
  Forall (λ b, b = true) mask → length mask = length l → select mask l = l.
Proof.
  intros H. revert l. induction H as [|b mask -> _ IH]; intros [|x l] [=]; simpl;
    [done|]. by rewrite IH.
Qed.

Lemma dt_date_of (ts : Series) :
  datetime_like ts → dt_date ts = Ok (date_of <$> ts).
Proof.
  intros Hts. apply mapM_total. eapply Forall_impl; [exact Hts|].
  by intros c [->|[t ->]].
Qed.

(** The sums of the groups of a column add up to the sum over the
    positions whose key is a group key. *)
Lemma total_of_select_groups (keys keycol s : Series) :
  NoDup keys → Forall (λ k, k ≠ NA) keys →
  total_of ((λ k, Num (total_of (select (Series_eq keycol k) s))) <$> keys)
  = total_of (select ((λ c, bool_decide (c ∈ keys)) <$> keycol) s).
Proof.
  intros Hnd Hna. revert s.
  induction keycol as [|c keycol IH]; intros [|v s];
    try (rewrite ?select_nil_r; apply total_of_zeros).
  trans (total_of ((λ k, Num ((if decide (Some c = Some k) then value v else 0)
                              + total_of (select (Series_eq keycol k) s))%Qc)
                     <$> keys)).
  { f_equal. apply list_fmap_ext. intros i k Hk. simpl. f_equal.
    pose proof (Forall_lookup_1 _ _ _ _ Hna Hk) as Hk'.
    unfold cell_eq. destruct (decide (Some c = Some k)) as [[= ->]|Hne].
    - rewrite bool_decide_true by done.
      replace (notna k) with true by (by destruct k).
      cbn [andb]. by rewrite total_of_cons.
    - rewrite (bool_decide_false (c = k)) by congruence.
      rewrite andb_false_r. by rewrite Qcplus_0_l. }
  rewrite total_of_fmap_plus, IH, total_of_indicator by done.
  rewrite fmap_cons. cbn [select].
  case_bool_decide as Hin; case_decide as Hin';
    rewrite ?total_of_cons, ?Qcplus_0_l; try done; exfalso.
  - by apply Hin', (list_elem_of_fmap_inj Some).
  - by apply Hin, (list_elem_of_fmap_inj Some).
Qed.

(** A filtered table is the loaded table under a mask, and every cell of
    its purchase column is a timestamp. *)
Lemma filtered_table
    (parse : cell → option Z) (fs : gmap string csv) (p : string)
    (df fdf : DataFrame) (date_range : Z * Z) (sc sp : cell) :
  load_data parse fs p = Ok df →
  has_column "order_purchase_timestamp" df = true →
  has_column "product_category_name" df = true →
  has_column "payment_type" df = true →
  apply_filters df date_range sc sp = Ok fdf →
  ∃ mask ts',
    fdf = getitem_mask df mask ∧
    getitem fdf "order_purchase_timestamp" = Ok ts' ∧ all_timestamps ts'.
Proof.
  intros Hload [ts Hts]%has_column_true Hcat Hpay.
  destruct (load_data_rectangular parse fs p df Hload) as [Hrect _].
  pose proof (load_data_purchase_datetime parse fs p df ts Hload Hts) as Hlike.
  unfold apply_filters.
  rewrite (filter_mask_rows df date_range sc sp ts Hrect Hts Hlike Hcat Hpay).
  simpl. intros [= <-]. eexists _, _. split; [done|].
  rewrite getitem_getitem_mask, Hts. simpl. split; [done|].
  rewrite <-(column_iterrows df _ ts Hrect Hts). unfold column at 1.
  rewrite select_fmap.
  rewrite (select_bool_decide
             (λ lr : cell * row, passes date_range sc sp lr.2)).
  apply Forall_fmap, Forall_forall. intros [l r] [[Hin _] _]%list_elem_of_filter.
  simpl in *. unfold in_date_range in Hin.
  destruct (assoc "order_purchase_timestamp" r) as [[]|]; try done.
  by eexists.
Qed.

(** X5. On the filtered table the revenue of the daily series adds up to
    the total revenue of the overview metrics: every row of a filtered table
    has a purchase date, so each row is in the group of exactly one day. *)
Theorem daily_revenue_adds_up
    (parse : cell → option Z) (fs : gmap string csv) (p : string)
    (df fdf : DataFrame) (date_range : Z * Z) (sc sp : cell)
    (order_id tv : Series) :
  load_data parse fs p = Ok df →
  has_column "order_purchase_timestamp" df = true →
  has_column "product_category_name" df = true →
  has_column "payment_type" df = true →
  getitem df "order_id" = Ok order_id →
  getitem df "total_value" = Ok tv → numeric tv →
  apply_filters df date_range sc sp = Ok fdf →
  ∃ daily revenue,
    create_time_series fdf = Ok daily ∧
    getitem daily "total_value" = Ok revenue ∧
    (∀ o, create_overview_metrics fdf = Ok o →
          total_revenue o = Num (total_of revenue)).
Proof.
  intros Hload Hts Hcat Hpay Hoid Htv Hnum Hfdf.
  destruct (load_data_rectangular parse fs p df Hload) as [Hrect _].
  destruct (filtered_table parse fs p df fdf date_range sc sp Hload Hts Hcat Hpay Hfdf)
    as (mask & ts' & -> & Hts' & Hall).
  apply has_column_true in Hts as [ts Hts].
  assert (ts' = select mask ts) as Hsel.
  { rewrite getitem_getitem_mask, Hts in Hts'. simpl in Hts'. congruence. }
  set (fdf := getitem_mask df mask) in *.
  assert (getitem fdf "order_id" = Ok (select mask order_id)) as Hoid'.
  { unfold fdf. by rewrite getitem_getitem_mask, Hoid. }
  assert (getitem fdf "total_value" = Ok (select mask tv)) as Htv'.
  { unfold fdf. by rewrite getitem_getitem_mask, Htv. }
  assert (numeric (select mask tv)) as Hnum' by by apply Forall_select.
  assert (datetime_like ts') as Hlike.
  { eapply Forall_impl; [exact Hall|]. intros c [t ->]. eauto. }
  set (keys := group_keys (date_of <$> ts')).
  set (revenue := (λ k, Num (total_of (select (Series_eq (date_of <$> ts') k)
                                           (select mask tv)))) <$> keys).
  assert (create_time_series fdf
          = Ok (reset_index "order_purchase_timestamp"
                  {| index := keys;
                     columns := [ ("order_id",
                                   (λ k, Int (Z.of_nat (length (remove_dups
                                      (filter (λ c, c ≠ NA)
                                         (select (Series_eq (date_of <$> ts') k)
                                                 (select mask order_id)))))))
                                   <$> keys);
                                  ("total_value", revenue) ] |})) as Hdaily.
  { unfold create_time_series. rewrite Hts'. simpl.
    rewrite (dt_date_of ts' Hlike). simpl.
    unfold groupby_agg, agg_column. simpl. rewrite Hoid'. simpl.
    rewrite (mapM_total _ (λ k, Int (Z.of_nat (length (remove_dups
               (filter (λ c, c ≠ NA)
                  (select (Series_eq (date_of <$> ts') k)
                          (select mask order_id)))))))); last first.
    { by apply Forall_true. }
    simpl. rewrite Htv'. simpl.
    rewrite (mapM_total _ (λ k, Num (total_of
               (select (Series_eq (date_of <$> ts') k) (select mask tv)))));
      last first.
    { apply Forall_true. intros k. unfold Series_sum.
      by rewrite sum_present_total by by apply Forall_select. }
    done. }
  eexists _, revenue. split; [exact Hdaily|]. split; [done|].
  intros o. unfold create_overview_metrics. rewrite Hoid'. simpl.
  rewrite Htv'. simpl. unfold Series_sum at 1.
  rewrite (sum_present_total _ Hnum'). simpl.
  destruct (Series_mean_numeric _ Hnum') as [m ->]. simpl.
  intros (dt & _ & (avg & _ & [= <-])%bind_Ok)%bind_Ok. simpl. f_equal.
  unfold revenue.
  rewrite total_of_select_groups; [|apply group_keys_NoDup|]; last first.
  { apply Forall_forall. by intros k [? _]%elem_of_group_keys. }
  rewrite (select_all ((λ c, bool_decide (c ∈ keys)) <$> (date_of <$> ts')));
    [done| |].
  - apply Forall_fmap, Forall_forall. intros c Hc. simpl.
    apply bool_decide_eq_true, elem_of_group_keys. split; [|done].
    apply list_elem_of_fmap in Hc as (c' & -> & Hc').
    by destruct (proj1 (Forall_forall _ _) Hall c' Hc') as [t ->].
  - rewrite !length_fmap, Hsel. apply length_select.
    by rewrite (getitem_length _ _ _ Hrect Hts), (getitem_length _ _ _ Hrect Htv).
Qed.

Lemma daily_revenue_adds_up_witness :
  ∃ daily revenue,
    create_time_series sample_filtered_df = Ok daily ∧
    getitem daily "total_value" = Ok revenue ∧
    (∀ o, create_overview_metrics sample_filtered_df = Ok o →
          total_revenue o = Num (total_of revenue)).
Proof.
  eapply (daily_revenue_adds_up iso_datetime sample_fs "data/cleaned_data.csv"
            sample_df sample_filtered_df (17532, 17534) All All).
  - vm_compute. reflexivity.
  - vm_compute. reflexivity.
  - vm_compute. reflexivity.
  - vm_compute. reflexivity.
  - vm_compute. reflexivity.
  - vm_compute. reflexivity.
  - check_cells.
  - vm_compute. reflexivity.
Defined.

(** * Further properties of the sidebar and the filters *)

Lemma Series_min_earliest (s : Series) :
  datetime_like s → Series_min s = Ok (from_option Ts NA (earliest s)).
Proof.
  unfold Series_min. induction 1 as [|c s Hc _ IH]; simpl; [done|].
  rewrite IH. simpl. destruct Hc as [->|[t ->]].
  - by destruct (earliest s).
  - destruct (earliest s) as [m|]; simpl; [|done].
    unfold cell_min. simpl.
    destruct (Z.compare_spec t m); do 2 f_equal; lia.
Qed.

Lemma earliest_le (s : Series) (m t : Z) :
  earliest s = Some m → Ts t ∈ s → m ≤ t.
Proof.
  revert m. induction s as [|c s IH]; intros m; [by intros _ ?%elem_of_nil|].
  simpl. intros Hm [<-|Hin]%elem_of_cons.
  - destruct (earliest s); simplify_eq; lia.
  - destruct c; try by apply IH.
    destruct (earliest s) as [m'|] eqn:Hs; simplify_eq.
    + specialize (IH m' eq_refl Hin). lia.
    + clear IH. exfalso. induction s as [|c s IH]; [by apply elem_of_nil in Hin|].
      simpl in Hs. apply elem_of_cons in Hin as [<-|Hin].
      * by destruct (earliest s).
      * apply IH; [|done]. destruct c; try done. by destruct (earliest s).
Qed.

Lemma latest_ge (s : Series) (m t : Z) :
  latest s = Some m → Ts t ∈ s → t ≤ m.
Proof.
  revert m. induction s as [|c s IH]; intros m; [by intros _ ?%elem_of_nil|].
  simpl. intros Hm [<-|Hin]%elem_of_cons.
  - destruct (latest s); simplify_eq; lia.
  - destruct c; try by apply IH.
    destruct (latest s) as [m'|] eqn:Hs; simplify_eq.
    + specialize (IH m' eq_refl Hin). lia.
    + clear IH. exfalso. induction s as [|c s IH]; [by apply elem_of_nil in Hin|].
      simpl in Hs. apply elem_of_cons in Hin as [<-|Hin].
      * by destruct (latest s).
      * apply IH; [|done]. destruct c; try done. by destruct (latest s).
Qed.

(** X6. The date picker opens on the dates of the earliest and of the
    latest purchase, and with that range and both select boxes on ['All']
    the filter keeps exactly the rows that have a purchase timestamp. *)
Theorem default_view_keeps_dated_rows
    (parse : cell → option Z) (fs : gmap string csv) (p : string)
    (df : DataFrame) (sb : sidebar) (a b : Z) :
  load_data parse fs p = Ok df →
  has_column "order_purchase_timestamp" df = true →
  has_column "product_category_name" df = true →
  has_column "payment_type" df = true →
  sidebar_of df = Ok sb → date_value sb = (Date a, Date b) →
  ∃ fdf,
    apply_filters df (a, b) All All = Ok fdf ∧
    iterrows fdf
    = filter (λ lr : cell * row, has_purchase lr.2) (iterrows df).
Proof.
  intros Hload Hts Hcat Hpay Hsb Hdates.
  destruct (apply_filters_rows parse fs p df (a, b) All All Hload Hts Hcat Hpay)
    as (fdf & _ & Hfdf & _ & Hrows & _).
  exists fdf. split; [done|]. rewrite Hrows. clear Hrows Hfdf.
  apply has_column_true in Hts as [ts Hts].
  pose proof (load_data_purchase_datetime parse fs p df ts Hload Hts) as Hlike.
  unfold sidebar_of in Hsb. rewrite Hts in Hsb. simpl in Hsb.
  rewrite (Series_min_earliest ts Hlike), (Series_max_latest ts Hlike) in Hsb.
  simpl in Hsb.
  apply bind_Ok in Hsb as (lo & Hlo & Hsb).
  apply bind_Ok in Hsb as (hi & Hhi & Hsb).
  apply bind_Ok in Hsb as (cats & _ & Hsb).
  apply bind_Ok in Hsb as (pays & _ & [= <-]). simpl in Hdates.
  injection Hdates as -> ->.
  destruct (earliest ts) as [ta|] eqn:Hta; [|done].
  destruct (latest ts) as [tb|] eqn:Htb; [|done].
  simpl in Hlo, Hhi. injection Hlo as <-. injection Hhi as <-.
  apply filter_ext_in, Forall_forall.
  intros [l r] (i & _ & ->)%elem_of_iterrows. simpl.
  unfold passes, in_date_range, has_purchase, selected_by.
  rewrite (getitem_iloc _ _ _ i Hts). simpl.
  destruct (ts !! i) as [c|] eqn:Hc; simpl; [|naive_solver].
  destruct (Forall_lookup_1 _ _ _ _ Hlike Hc) as [->|[t ->]]; [naive_solver|].
  assert (Ts t ∈ ts) as Hin by (by eapply list_elem_of_lookup_2).
  pose proof (earliest_le ts ta t Hta Hin).
  pose proof (latest_ge ts tb t Htb Hin).
  assert (0 < day_ns) by done.
  pose proof (Z.div_le_mono ta t day_ns).
  pose proof (Z.div_le_mono t tb day_ns).
  naive_solver lia.
Qed.

Lemma default_view_keeps_dated_rows_witness :
  ∃ fdf,
    apply_filters gaps_df (17532, 17533) All All = Ok fdf ∧
    iterrows fdf
    = filter (λ lr : cell * row, has_purchase lr.2) (iterrows gaps_df).
Proof.
  eapply (default_view_keeps_dated_rows iso_datetime gaps_fs
            "data/cleaned_data.csv" gaps_df).
  - vm_compute. reflexivity.
  - vm_compute. reflexivity.
  - vm_compute. reflexivity.
  - vm_compute. reflexivity.
  - vm_compute. reflexivity.
  - vm_compute. reflexivity.
Defined.

Lemma sublist_filter_impl {A} (P Q : A → Prop) `{!∀ x, Decision (P x)}
    `{!∀ x, Decision (Q x)} (l : list A) :
  (∀ x, P x → Q x) → sublist (filter P l) (filter Q l).
Proof.
  intros HPQ. induction l as [|x l IH]; [done|]. rewrite !filter_cons.
  destruct (decide (P x)) as [HP|HP].
  - rewrite decide_True by auto. by constructor.
  - destruct (decide (Q x)); [by constructor | done].
Qed.

(** X7. Loosening the filters never hides a row: with a date range that
    contains the old one, and each select box either unchanged or set back
    to ['All'], the rows shown before are still shown, in the same order. *)
Theorem wider_filters_show_more
    (parse : cell → option Z) (fs : gmap string csv) (p : string)
    (df : DataFrame) (date_range date_range' : Z * Z) (sc sp sc' sp' : cell) :
  load_data parse fs p = Ok df →
  has_column "order_purchase_timestamp" df = true →
  has_column "product_category_name" df = true →
  has_column "payment_type" df = true →
  date_range'.1 ≤ date_range.1 → date_range.2 ≤ date_range'.2 →
  sc' = All ∨ sc' = sc → sp' = All ∨ sp' = sp →
  ∃ fdf fdf',
    apply_filters df date_range sc sp = Ok fdf ∧
    apply_filters df date_range' sc' sp' = Ok fdf' ∧
    sublist (iterrows fdf) (iterrows fdf').
Proof.
  intros Hload Hts Hcat Hpay Hlo Hhi Hsc Hsp.
  destruct (apply_filters_rows parse fs p df date_range sc sp Hload Hts Hcat Hpay)
    as (fdf & _ & Hfdf & _ & Hrows & _).
  destruct (apply_filters_rows parse fs p df date_range' sc' sp' Hload Hts Hcat Hpay)
    as (fdf' & _ & Hfdf' & _ & Hrows' & _).
  exists fdf, fdf'. split; [done|]. split; [done|].
  rewrite Hrows, Hrows'. apply sublist_filter_impl.
  intros [l r]. simpl. unfold passes, in_date_range, selected_by.
  intros (Hin & Hc & Hp). split; [|split].
  - destruct (assoc "order_purchase_timestamp" r) as [[]|]; try done. lia.
  - destruct Hsc as [->| ->]; [by left | done].
  - destruct Hsp as [->| ->]; [by left | done].
Qed.

Lemma wider_filters_show_more_witness :
  ∃ fdf fdf',
    apply_filters sample_df (17532, 17534) (Str "toys") All = Ok fdf ∧
    apply_filters sample_df (17532, 17540) All All = Ok fdf' ∧
    sublist (iterrows fdf) (iterrows fdf').
Proof.
  apply (wider_filters_show_more iso_datetime sample_fs "data/cleaned_data.csv"
           sample_df (17532, 17534) (17532, 17540) (Str "toys") All All All).
  - vm_compute. reflexivity.
  - vm_compute. reflexivity.
  - vm_compute. reflexivity.
  - vm_compute. reflexivity.
  - simpl. lia.
  - simpl. lia.
  - by left.
  - by left.
Defined.

(** * Further properties of RFM *)

Lemma getitem_mask_rectangular (df : DataFrame) (mask : list bool) :
  rectangular df → rectangular (getitem_mask df mask).
Proof.
  unfold rectangular, getitem_mask. simpl. intros Hrect.
  apply Forall_fmap. eapply Forall_impl; [exact Hrect|].
  intros [c s]. simpl. apply length_select.
Qed.

Lemma latest_is_Some (s : Series) (t : Z) :
  Ts t ∈ s → ∃ m, latest s = Some m.
Proof.
  induction s as [|c s IH]; [by intros ?%elem_of_nil|].
  simpl. intros [<-|Hin]%elem_of_cons.
  - destruct (latest s); eauto.
  - destruct (IH Hin) as [m ->]. destruct c; eauto.
Qed.

Lemma elem_of_column (c : string) (P : cell * row → Prop)
    `{!∀ x, Decision (P x)} (rows : list (cell * row)) (x : cell) :
  x ∈ column c (filter P rows) → x ∈ column c rows.
Proof.
  unfold column. intros (lr & -> & [_ Hlr]%list_elem_of_filter)%list_elem_of_fmap.
  apply list_elem_of_fmap. eauto.
Qed.

(** On a table whose purchase column has no missing cell, the recency of
    every customer is a whole number of days, and it is not negative. *)
Lemma recency_is_not_negative (df : DataFrame) (ts ids : Series) (k : cell) :
  rectangular df →
  getitem df "order_purchase_timestamp" = Ok ts → all_timestamps ts →
  getitem df "customer_unique_id" = Ok ids →
  k ≠ NA → k ∈ ids →
  ∃ d, recency df k = Int d ∧ 0 ≤ d.
Proof.
  intros Hrect Hts Hall Hids Hk (i & Hi)%list_elem_of_lookup.
  unfold recency. rewrite (column_iterrows df _ ts Hrect Hts).
  set (group := column "order_purchase_timestamp" (orders_of k df)).
  assert (∀ x, x ∈ group → x ∈ ts) as Hsub.
  { intros x Hx. rewrite <-(column_iterrows df _ ts Hrect Hts).
    by eapply elem_of_column. }
  assert (∃ t, Ts t ∈ group) as [t Ht].
  { pose proof (lookup_lt_Some _ _ _ Hi) as Hlt.
    rewrite (getitem_length _ _ _ Hrect Hids) in Hlt.
    rewrite <-(getitem_length _ _ _ Hrect Hts) in Hlt.
    apply lookup_lt_is_Some in Hlt as [c Hc].
    destruct (Forall_lookup_1 _ _ _ _ Hall Hc) as [t ->]. exists t.
    pose proof (lookup_lt_Some _ _ _ Hi) as Hlt.
    rewrite (getitem_length _ _ _ Hrect Hids) in Hlt.
    apply lookup_lt_is_Some in Hlt as [l Hl].
    unfold group, column, orders_of. apply list_elem_of_fmap.
    exists (l, iloc df i). simpl. split.
    - by rewrite (getitem_iloc _ _ _ i Hts), Hc.
    - apply list_elem_of_filter. simpl. split.
      + by rewrite (getitem_iloc _ _ _ i Hids), Hi.
      + apply elem_of_iterrows. eauto. }
  destruct (latest_is_Some group t Ht) as [b Hb].
  destruct (latest_is_Some ts t (Hsub _ Ht)) as [a Ha].
  rewrite Ha, Hb. eexists. split; [done|].
  assert (Ts b ∈ group) as Hbin.
  { clear -Hb. revert b Hb. induction group as [|c g IH]; intros b; [done|].
    simpl. destruct c; try (intros ?; right; by apply IH).
    destruct (latest g) as [m|] eqn:Hg; intros [= <-]; [|by left].
    destruct (Z.max_spec ns m) as [[_ ->]|[_ ->]]; [right; by apply IH | by left]. }
  pose proof (latest_ge ts a b Ha (Hsub _ Hbin)).
  apply Z.div_pos; [lia | done].
Qed.

(** X8. Whatever the filters of [main] are, [calculate_rfm] returns on the
    filtered table, and the recency of every customer is a whole number of
    days that is not negative: a filtered table has no row without a
    purchase timestamp. *)
Theorem rfm_of_filtered_table_has_recency
    (parse : cell → option Z) (fs : gmap string csv) (p : string)
    (df fdf : DataFrame) (date_range : Z * Z) (sc sp : cell)
    (ids order_id tv : Series) :
  load_data parse fs p = Ok df →
  has_column "order_purchase_timestamp" df = true →
  has_column "product_category_name" df = true →
  has_column "payment_type" df = true →
  getitem df "customer_unique_id" = Ok ids →
  getitem df "order_id" = Ok order_id →
  getitem df "total_value" = Ok tv → numeric tv →
  apply_filters df date_range sc sp = Ok fdf →
  ∃ rfm,
    calculate_rfm fdf = Ok rfm ∧
    ∀ k r, (k, r) ∈ iterrows rfm →
           ∃ d, assoc "recency" r = Some (Int d) ∧ 0 ≤ d.
Proof.
  intros Hload Hts Hcat Hpay Hids Hoid Htv Hnum Hfdf.
  destruct (load_data_rectangular parse fs p df Hload) as [Hrect _].
  destruct (filtered_table parse fs p df fdf date_range sc sp Hload Hts Hcat Hpay Hfdf)
    as (mask & ts' & -> & Hts' & Hall).
  apply (getitem_mask_rectangular df mask) in Hrect.
  set (fdf := getitem_mask df mask) in *.
  assert (getitem fdf "customer_unique_id" = Ok (select mask ids)) as Hids'.
  { unfold fdf. by rewrite getitem_getitem_mask, Hids. }
  assert (getitem fdf "order_id" = Ok (select mask order_id)) as Hoid'.
  { unfold fdf. by rewrite getitem_getitem_mask, Hoid. }
  assert (getitem fdf "total_value" = Ok (select mask tv)) as Htv'.
  { unfold fdf. by rewrite getitem_getitem_mask, Htv. }
  assert (datetime_like ts') as Hlike.
  { eapply Forall_impl; [exact Hall|]. intros c [t ->]. eauto. }
  eexists. split.
  - eapply (calculate_rfm_rows fdf); try done. by apply Forall_select.
  - rewrite iterrows_rfm.
    intros k r (k' & [= <- ->] & [Hk Hin]%elem_of_group_keys)%list_elem_of_fmap.
    destruct (recency_is_not_negative fdf ts' _ k Hrect Hts' Hall Hids' Hk Hin)
      as (d & Hd & Hpos).
    exists d. split; [|done]. simpl. by rewrite Hd.
Qed.

Lemma rfm_of_filtered_table_has_recency_witness :
  ∃ rfm,
    calculate_rfm sample_filtered_df = Ok rfm ∧
    ∀ k r, (k, r) ∈ iterrows rfm →
           ∃ d, assoc "recency" r = Some (Int d) ∧ 0 ≤ d.
Proof.
  eapply (rfm_of_filtered_table_has_recency iso_datetime sample_fs
            "data/cleaned_data.csv" sample_df sample_filtered_df
            (17532, 17534) All All).
  - vm_compute. reflexivity.
  - vm_compute. reflexivity.
  - vm_compute. reflexivity.
  - vm_compute. reflexivity.
  - vm_compute. reflexivity.
  - vm_compute. reflexivity.
  - vm_compute. reflexivity.
  - check_cells.
  - vm_compute. reflexivity.
Defined.

(** * Sorting and the tables of the best *)

Lemma imap_pairs_fst {A} (l : list A) :
  (imap (λ i x, (i, x)) l).*1 = seq 0 (length l).
Proof.
  rewrite fmap_imap. etrans; [apply (imap_positions (λ i : nat, i))|].
  by rewrite list_fmap_id.
Qed.

Lemma imap_pairs_lookup {A} (l : list A) :
  Forall (λ p : nat * A, l !! p.1 = Some p.2) (imap (λ i x, (i, x)) l).
Proof.
  apply Forall_forall. by intros [i x] (j & y & [= -> ->] & Hj)%elem_of_lookup_imap.
Qed.

(** The two halves [argsort] sorts apart. *)
Lemma argsort_parts (s : Series) :
  let cells := imap (λ i c, (i, c)) s in
  filter (λ p : nat * cell, p.2 ≠ NA) cells
  ++ filter (λ p : nat * cell, p.2 = NA) cells ≡ₚ cells.
Proof.
  intros cells.
  rewrite (filter_ext_in (λ p : nat * cell, p.2 = NA)
             (λ p : nat * cell, ¬ p.2 ≠ NA)).
  - apply filter_app_complement.
  - apply Forall_true. intros [i c]. simpl. destruct (decide (c = NA)); naive_solver.
Qed.

Lemma argsort_Permutation (ascending : bool) (s : Series) :
  argsort ascending s ≡ₚ seq 0 (length s).
Proof.
  unfold argsort. rewrite merge_sort_Permutation, argsort_parts.
  by rewrite imap_pairs_fst.
Qed.

Lemma StronglySorted_impl_elem {A} (R R' : relation A) (l : list A) :
  (∀ x y, x ∈ l → y ∈ l → R x y → R' x y) →
  StronglySorted R l → StronglySorted R' l.
Proof.
  intros Himpl Hsorted. induction Hsorted as [|x l Hsorted IH Hall].
  - constructor.
  - constructor.
    + apply IH. intros y z Hy Hz. apply Himpl; by right.
    + apply Forall_forall. intros y Hy. apply Himpl; [by left | by right|].
      by apply (proj1 (Forall_forall _ _) Hall).
Qed.

(** Along the positions [argsort] returns, the values are in order: from
    the smallest on, missing values last; or from the largest on, when no
    value is missing. *)
Lemma argsort_sorted (ascending : bool) (s : Series) :
  (ascending = false → Forall (λ c, c ≠ NA) s) →
  StronglySorted (λ i j, in_order ascending (default NA (s !! i))
                                            (default NA (s !! j)))
                 (argsort ascending s).
Proof.
  intros Hna. unfold argsort.
  set (cells := imap (λ i c, (i, c)) s).
  set (present := filter (λ p : nat * cell, p.2 ≠ NA) cells).
  set (missing := filter (λ p : nat * cell, p.2 = NA) cells).
  set (sorted := merge_sort (value_before ascending) present).
  assert (Forall (λ p : nat * cell, s !! p.1 = Some p.2) (sorted ++ missing))
    as Hlookup.
  { apply Forall_app. split.
    - unfold sorted. rewrite merge_sort_Permutation.
      apply Forall_forall. intros p [_ Hp]%list_elem_of_filter.
      by apply (proj1 (Forall_forall _ _) (imap_pairs_lookup s)).
    - apply Forall_forall. intros p [_ Hp]%list_elem_of_filter.
      by apply (proj1 (Forall_forall _ _) (imap_pairs_lookup s)). }
  apply (StronglySorted_fmap fst
           (λ p q : nat * cell, in_order ascending (default NA (s !! p.1))
                                                   (default NA (s !! q.1)))).
  { by intros p q. }
  apply (StronglySorted_impl_elem
           (λ p q : nat * cell, in_order ascending p.2 q.2)).
  { intros p q Hp Hq.
    rewrite (proj1 (Forall_forall _ _) Hlookup p Hp).
    by rewrite (proj1 (Forall_forall _ _) Hlookup q Hq). }
  apply StronglySorted_app. split; [|split].
  - intros p q Hp Hq.
    assert (s !! q.1 = Some q.2) as Hs.
    { apply (proj1 (Forall_forall _ _) Hlookup q), elem_of_app. by right. }
    apply list_elem_of_filter in Hq as [Hq _]. destruct ascending; simpl.
    + rewrite Hq. apply cell_before_cases. destruct p.2; simpl; lia.
    + exfalso. apply (proj1 (Forall_forall _ _) (Hna eq_refl) q.2); [|done].
      by eapply list_elem_of_lookup_2.
  - unfold sorted.
    pose proof (StronglySorted_merge_sort (value_before ascending) present)
      as Hsorted.
    eapply StronglySorted_impl_elem; [|exact Hsorted].
    intros p q _ _. unfold value_before, in_order. by destruct ascending.
  - assert (Forall (λ p : nat * cell, p.2 = NA) missing) as Hmissing.
    { apply Forall_forall. by intros p [? _]%list_elem_of_filter. }
    clear -Hmissing. induction Hmissing as [|p l Hp Hl IH]; constructor; [done|].
    eapply Forall_impl; [exact Hl|]. intros q Hq. simpl in *.
    rewrite Hp, Hq. by destruct ascending.
Qed.

Lemma getitem_take_rows (df : DataFrame) (positions : list nat) (c : string) :
  getitem (take_rows df positions) c
  = (λ s : Series, (λ i, default NA (s !! i)) <$> positions) <$> getitem df c.
Proof.
  unfold getitem, take_rows. simpl. rewrite assoc_fmap.
  by destruct (assoc c (columns df)).
Qed.

(** The row of a table at a position. *)
Lemma iterrows_take_rows (df : DataFrame) (positions : list nat) :
  iterrows (take_rows df positions)
  = (λ i, (default NA (index df !! i), iloc df i)) <$> positions.
Proof.
  unfold iterrows. simpl. apply list_eq. intros j.
  rewrite list_lookup_imap, !list_lookup_fmap.
  destruct (positions !! j) as [i|] eqn:Hj; simpl; [|done].
  do 2 f_equal. unfold iloc. simpl. rewrite <-list_fmap_compose.
  apply list_fmap_ext. intros _ [c s] _. simpl. by rewrite list_lookup_fmap, Hj.
Qed.





(** X10. The table of [create_product_insights], whenever it is built, has
    one row per category of the table, each with the sum of the total values
    of that category's rows, and the rows come with the largest total
    first. *)
Theorem category_sales_largest_first (df sales : DataFrame) :
  create_product_insights df = Ok sales →
  ∃ category tv totals,
    getitem df "product_category_name" = Ok category ∧
    getitem df "total_value" = Ok tv ∧
    index sales ≡ₚ group_keys category ∧
    (∀ k r, (k, r) ∈ iterrows sales →
            Series_sum (select (Series_eq category k) tv)
            = Ok (cell_of "total_value" r)) ∧
    getitem sales "total_value" = Ok totals ∧
    StronglySorted (in_order false) totals.
Proof.
  unfold create_product_insights.
  intros (category & Hcat & (g & Hg & Hsort)%bind_Ok)%bind_Ok.
  pose proof (groupby_agg_rectangular _ _ _ _ Hg) as Hrect.
  destruct (groupby_agg_Ok _ _ _ _ Hg) as [Hidx Hcols].
  apply Forall2_cons_inv_l in Hcols
    as ([c1 s1] & cols & (Hc1 & tv & Htv & Hvals) & _ & Hcolumns).
  simpl in Hc1, Htv, Hvals. subst c1.
  assert (getitem g "total_value" = Ok s1) as Hs1.
  { unfold getitem. by rewrite Hcolumns. }
  unfold sort_values in Hsort. rewrite Hs1 in Hsort. simpl in Hsort.
  injection Hsort as <-.
  pose proof (getitem_length _ _ _ Hrect Hs1) as Hlen.
  assert (Forall (λ c, c ≠ NA) s1) as Hpresent.
  { clear -Hvals. induction Hvals as [|k y ks ys Hy _ IH]; constructor; [|done].
    unfold Series_sum in Hy. apply fmap_Ok in Hy as (t & _ & ->). done. }
  pose proof (argsort_Permutation false s1) as Hperm.
  pose proof (argsort_sorted false s1 (λ _, Hpresent)) as Hsorted.
  exists category, tv, ((λ i, default NA (s1 !! i)) <$> argsort false s1).
  split; [done|]. split; [done|]. split; [|split; [|split]].
  - simpl. rewrite Hperm, Hlen, <-Hidx.
    by rewrite <-(Series_positions (index g)).
  - intros k r. rewrite iterrows_take_rows.
    intros (i & [= -> ->] & Hi)%list_elem_of_fmap.
    unfold cell_of. rewrite (getitem_iloc _ _ _ _ Hs1). simpl.
    rewrite Hperm in Hi. apply elem_of_seq in Hi as [_ Hi]. simpl in Hi.
    destruct (lookup_lt_is_Some_2 s1 i Hi) as [y Hy].
    destruct (Forall2_lookup_r _ _ _ _ _ Hvals Hy) as (k & Hk & Hsum).
    rewrite Hidx, Hk, Hy. done.
  - by rewrite getitem_take_rows, Hs1.
  - by eapply (StronglySorted_fmap (λ i, default NA (s1 !! i))); [|exact Hsorted].
Qed.

Lemma category_sales_largest_first_witness :
  ∃ category tv totals,
    getitem sample_df "product_category_name" = Ok category ∧
    getitem sample_df "total_value" = Ok tv ∧
    index (take_rows
             {| index := [ Str "books"; Str "toys" ];
                columns := [ ("total_value", [ Int 20; Int 44 ]);
                             ("delivery_time", [ Int 2; Int 2 ]);
                             ("review_score", [ Int 4; Num (Q2Qc (7 # 2)) ]) ] |}
             [ 1%nat; 0%nat ])
    ≡ₚ group_keys category ∧
    (∀ k r, (k, r) ∈ iterrows
              (take_rows
                 {| index := [ Str "books"; Str "toys" ];
                    columns := [ ("total_value", [ Int 20; Int 44 ]);
                                 ("delivery_time", [ Int 2; Int 2 ]);
                                 ("review_score", [ Int 4; Num (Q2Qc (7 # 2)) ]) ] |}
                 [ 1%nat; 0%nat ]) →
            Series_sum (select (Series_eq category k) tv)
            = Ok (cell_of "total_value" r)) ∧
    getitem (take_rows
               {| index := [ Str "books"; Str "toys" ];
                  columns := [ ("total_value", [ Int 20; Int 44 ]);
                               ("delivery_time", [ Int 2; Int 2 ]);
                               ("review_score", [ Int 4; Num (Q2Qc (7 # 2)) ]) ] |}
               [ 1%nat; 0%nat ]) "total_value" = Ok totals ∧
    StronglySorted (in_order false) totals.
Proof.
  apply (category_sales_largest_first sample_df).
  apply (bool_decide_unpack _). by vm_compute.
Defined.
